(** * ArtificialFinance: the storage service over Firestore and the session store

    A shallow embedding of [services/storage_service.py] and of
    [services/auth_service.py].  The five storage operations are written in a
    state-and-exception monad over a world made of the Streamlit session
    state, the Firestore document tree and a trace of what the call did
    outside the process (backend calls, operator messages); start-up, sign-in
    and sign-up have a state of their own. *)

From Stdlib Require Import Strings.String Strings.Ascii.
From stdpp Require Import gmap strings list fin_maps sorting.

Local Open Scope string_scope.
Local Open Scope list_scope.

(** ** Clock values and their renderings *)

Module Datetime.

(** The fields of a [datetime.datetime] value. *)
Record datetime := Make {
  year : N; month : N; day : N;
  hour : N; minute : N; second : N;
  microsecond : N
}.

Definition digit (n : N) : ascii := ascii_of_N (48 + n mod 10)%N.

(** [n] in decimal on exactly [width] digits, zero padded on the left. *)
Fixpoint zero_padded (width : nat) (n : N) : string :=
  match width with
  | 0 => ""
  | S w => zero_padded w (n / 10)%N +:+ String (digit n) ""
  end.

(** [d.strftime('%Y%m%d%H%M%S')] *)
Definition strftime_YmdHMS (d : datetime) : string :=
  zero_padded 4 (year d) +:+ zero_padded 2 (month d) +:+ zero_padded 2 (day d)
  +:+ zero_padded 2 (hour d) +:+ zero_padded 2 (minute d)
  +:+ zero_padded 2 (second d).

(** [d.isoformat()]: the fraction is printed only when it is not zero. *)
Definition isoformat (d : datetime) : string :=
  zero_padded 4 (year d) +:+ "-" +:+ zero_padded 2 (month d) +:+ "-"
  +:+ zero_padded 2 (day d) +:+ "T" +:+ zero_padded 2 (hour d) +:+ ":"
  +:+ zero_padded 2 (minute d) +:+ ":" +:+ zero_padded 2 (second d)
  +:+ (if N.eqb (microsecond d) 0%N then ""
       else "." +:+ zero_padded 6 (microsecond d)).

(** Two clock readings that fall in the same second. *)
Definition same_second (a b : datetime) : Prop :=
  year a = year b ∧ month a = month b ∧ day a = day b ∧
  hour a = hour b ∧ minute a = minute b ∧ second a = second b.

End Datetime.
Export Datetime.

(** ** Documents *)

(** The values this module puts in a document field. *)
Inductive value :=
  | VStr (s : string)
  | VInt (n : nat)
  | VMapping (m : gmap string string)
  | VRecords (rows : list (gmap string string)).

#[global] Instance value_eq_dec : EqDecision value.
Proof. solve_decision. Defined.

(** A document or a dict with string keys. *)
Abbreviation doc := (gmap string value).
(** A collection: document id to document.  The session dicts have the
    same shape. *)
Abbreviation collection := (gmap string (gmap string value)).

(** A [DataFrame]: its rows, each a flat record. *)
Abbreviation dataframe := (list (gmap string string)).

(** [df.to_dict(orient="records")] *)
Definition to_dict_records (df : dataframe) : value := VRecords df.

(** ** The world *)

(** [st.session_state]: each of the two keys may be missing. *)
Record Session := MkSession {
  saved_mappings : option collection;
  saved_financial_data : option collection
}.

(** The two sub-collections kept under [users/{user_id}]. *)
Inductive subcollection := Mappings | FinancialData.

#[global] Instance subcollection_eq_dec : EqDecision subcollection.
Proof. solve_decision. Defined.

(** The Firestore tree: [users/{user_id}/mappings/{id}] and
    [users/{user_id}/financial_data/{id}]. *)
Record Firestore := MkFirestore {
  mappings : gmap string collection;
  financial_data : gmap string collection
}.

(** The calls into the Firestore SDK: obtaining the client, and the three
    calls made on it. *)
Inductive rpc :=
  | Client                      (* [firestore.client()], in [get_db] *)
  | Add (c : subcollection)     (* [collection.add(data)] *)
  | Query (c : subcollection)   (* [query.get()] *)
  | Update (c : subcollection). (* [reference.update(fields)] *)

Inductive event :=
  | GetDb                                 (* [get_db()] was called *)
  | Rpc (r : rpc) (raised : bool)         (* a call on the client, and whether it raised *)
  | StError (msg : string)                (* [st.error] *)
  | StWarning (msg : string).             (* [st.warning] *)

Record World := MkWorld {
  session : Session;
  firestore : Firestore;
  trace : list event
}.

(** What the surroundings decide for one call of an operation: the clock
    ([now e k] is the k-th [datetime.now()] of the call), the cached result of
    [initialize_firebase], which SDK calls raise and with what message, and
    the id Firestore draws for a document that is added. *)
Record Env := MkEnv {
  now : nat → datetime;
  firebase_app : bool;
  raises : rpc → option string;
  auto_id : string
}.

Definition set_session (f : Session → Session) (w : World) : World :=
  MkWorld (f (session w)) (firestore w) (trace w).
Definition set_firestore (f : Firestore → Firestore) (w : World) : World :=
  MkWorld (session w) (f (firestore w)) (trace w).
Definition log (ev : event) (w : World) : World :=
  MkWorld (session w) (firestore w) (trace w ++ [ev]).

Definition get_collection (c : subcollection) (u : string) (fs : Firestore)
  : collection :=
  default ∅ (match c with
             | Mappings => mappings fs !! u
             | FinancialData => financial_data fs !! u
             end).

Definition put_collection (c : subcollection) (u : string) (docs : collection)
    (fs : Firestore) : Firestore :=
  match c with
  | Mappings => MkFirestore (<[u := docs]> (mappings fs)) (financial_data fs)
  | FinancialData => MkFirestore (mappings fs) (<[u := docs]> (financial_data fs))
  end.

#[global] Arguments get_collection : simpl never.
#[global] Arguments put_collection : simpl never.

(** ** The monad: state, and exceptions carrying [str(e)] *)

Inductive outcome (A : Type) :=
  | Ret (a : A)
  | Raise (msg : string).
Arguments Ret {A} a.
Arguments Raise {A} msg.

Definition M (A : Type) : Type := World → outcome A * World.

Definition ret {A} (a : A) : M A := λ w, (Ret a, w).
Definition raise {A} (msg : string) : M A := λ w, (Raise msg, w).
Definition bind {A B} (m : M A) (k : A → M B) : M B :=
  λ w, match m w with
       | (Ret a, w') => k a w'
       | (Raise msg, w') => (Raise msg, w')
       end.
(** [try: body except Exception as e: handler(str(e))] *)
Definition try_except {A} (body : M A) (handler : string → M A) : M A :=
  λ w, match body w with
       | (Ret a, w') => (Ret a, w')
       | (Raise msg, w') => handler msg w'
       end.
Definition get_world : M World := λ w, (Ret w, w).
Definition modify (f : World → World) : M unit := λ w, (Ret tt, f w).
Definition emit (ev : event) : M unit := modify (log ev).

Declare Scope py_scope.
Delimit Scope py_scope with py.
Notation "'let!' x ':=' m 'in' k" := (bind m (λ x, k))
  (at level 10, x name, m at level 100, k at level 200) : py_scope.
Notation "m >> k" := (bind m (λ _, k))
  (at level 100, k at level 200, right associativity) : py_scope.
Local Open Scope py_scope.

(** ** Truthiness and the demo prefix *)

(** A user id is a string or [None]. *)
Definition truthy (s : option string) : bool :=
  match s with
  | Some s => negb (String.eqb s "")
  | None => false
  end.

Definition demo_prefix : string := "demo_user_".

(** [s.startswith(p)] *)
Definition startswith (s p : string) : bool := String.prefix p s.

(** The test [not user_id or user_id.startswith("demo_user_")]. *)
Definition demo_mode (user_id : option string) : bool :=
  match user_id with
  | None => true
  | Some u => negb (truthy (Some u)) || startswith u demo_prefix
  end.

(** ** auth_service.py *)

(** [initialize_firebase] is a cached resource: its body runs once and
    catches its own failures, so a call yields the SDK module or [None]. *)
Definition initialize_firebase (e : Env) : option unit :=
  if firebase_app e then Some tt else None.

(** [get_db]: [None] when [initialize_firebase] gave [None]; otherwise what
    [firestore.client()] gives, the client or the exception it raises (the
    call is not inside a [try]). *)
Definition get_db (e : Env) : M (option unit) :=
  emit GetDb >>
  match initialize_firebase e with
  | Some _ =>
      match raises e Client with
      | Some msg => raise msg
      | None => ret (Some tt)
      end
  | None => ret None
  end.

(** ** The Firestore client *)

(** Documents come back ordered by id. *)
Definition id_le (a b : string * doc) : Prop := String.leb a.1 b.1 = true.

#[global] Instance id_le_dec a b : Decision (id_le a b).
Proof. unfold id_le. apply _. Defined.

Definition in_id_order (docs : collection) : list (string * doc) :=
  merge_sort id_le (map_to_list docs).

Definition limit {A} (n : option nat) (l : list A) : list A :=
  match n with
  | Some k => take k l
  | None => l
  end.

(** A call on the client that raises: it is logged and the message is
    thrown. *)
Definition failed {A} (r : rpc) (msg : string) : M A :=
  emit (Rpc r true) >> raise msg.

(** [collection.add(data)]: creates the document under a drawn id; creating
    over an existing document is refused.  Returns the tuple
    [(update_time, reference)], the reference being given by the id. *)
Definition add (e : Env) (c : subcollection) (u : string) (data : doc)
  : M (unit * string) :=
  match raises e (Add c) with
  | Some msg => failed (Add c) msg
  | None =>
      let! w := get_world in
      let docs := get_collection c u (firestore w) in
      match docs !! auto_id e with
      | Some _ => failed (Add c) "409 Document already exists"
      | None =>
          emit (Rpc (Add c) false) >>
          modify (set_firestore (put_collection c u (<[auto_id e := data]> docs))) >>
          ret (tt, auto_id e)
      end
  end.

(** [collection.where(field, "==", v)] when [cond] is given, then
    [.limit(n)] when [n] is, then [.get()]: the snapshots as a list. *)
Definition query (e : Env) (c : subcollection) (u : string)
    (cond : option (string * value)) (n : option nat)
  : M (list (string * doc)) :=
  match raises e (Query c) with
  | Some msg => failed (Query c) msg
  | None =>
      let! w := get_world in
      emit (Rpc (Query c) false) >>
      let docs := in_id_order (get_collection c u (firestore w)) in
      let hits :=
        match cond with
        | Some (field, v) => filter (λ d, d.2 !! field = Some v) docs
        | None => docs
        end in
      ret (limit n hits)
  end.

(** [doc.reference.update(fields)]: sets the given fields and keeps the
    others; refused when the document is gone. *)
Definition update (e : Env) (c : subcollection) (u : string) (id : string)
    (fields : doc) : M unit :=
  match raises e (Update c) with
  | Some msg => failed (Update c) msg
  | None =>
      let! w := get_world in
      let docs := get_collection c u (firestore w) in
      match docs !! id with
      | None => failed (Update c) "404 No document to update"
      | Some old =>
          emit (Rpc (Update c) false) >>
          modify (set_firestore (put_collection c u (<[id := fields ∪ old]> docs)))
      end
  end.

(** [doc_ref.id] where [doc_ref] is what [add] returned.  That is a tuple,
    and a tuple has no attribute [id]: the read raises [AttributeError]. *)
Definition read_id (doc_ref : unit * string) : M string :=
  raise "'tuple' object has no attribute 'id'".

(** ** storage_service.py *)

(** The string the remote branch passes on: reached only with a user id that
    is a non-empty string. *)
Definition uid (user_id : option string) : string := default "" user_id.

(** [st.session_state.saved_mappings[file_id] = entry], the dict being created
    when the key is missing. *)
Definition store_mapping (file_id : string) (entry : doc) (s : Session)
  : Session :=
  MkSession (Some (<[file_id := entry]> (default ∅ (saved_mappings s))))
            (saved_financial_data s).

(** [st.session_state.saved_financial_data[data_id] = record], likewise. *)
Definition store_financial_data (data_id : string) (record : doc) (s : Session)
  : Session :=
  MkSession (saved_mappings s)
            (Some (<[data_id := record]> (default ∅ (saved_financial_data s)))).

(** The entry kept under a file label in the session state. *)
Definition session_entry (e : Env) (mappings : gmap string string) : doc :=
  {[ "mappings" := VMapping mappings;
     "last_used" := VStr (isoformat (now e 0)) ]}.

(** [mapping_doc] of [save_column_mappings]. *)
Definition mapping_doc (e : Env) (file_id : string) (m : gmap string string)
  : doc :=
  {[ "file_name" := VStr file_id;
     "mappings" := VMapping m;
     "created_at" := VStr (isoformat (now e 0));
     "last_used" := VStr (isoformat (now e 1)) ]}.

(** [mapping_doc] of [update_column_mappings]. *)
Definition updated_doc (e : Env) (file_id : string) (m : gmap string string)
  : doc :=
  {[ "file_name" := VStr file_id;
     "mappings" := VMapping m;
     "updated_at" := VStr (isoformat (now e 0));
     "last_used" := VStr (isoformat (now e 1)) ]}.

(** [data_id] of the demo branch of [save_financial_data]: the clock is
    read first for the id, then for [created_at]. *)
Definition data_id (e : Env) (data_type : string) : string :=
  data_type +:+ "_" +:+ strftime_YmdHMS (now e 0).

(** The record the demo branch of [save_financial_data] stores. *)
Definition financial_record (e : Env) (data_type : string) (data_df : dataframe)
  : doc :=
  {[ "type" := VStr data_type;
     "data" := to_dict_records data_df;
     "created_at" := VStr (isoformat (now e 1)) ]}.

(** [data_dict] of the remote branch of [save_financial_data]. *)
Definition data_dict (e : Env) (data_type : string) (data_df : dataframe) : doc :=
  {[ "type" := VStr data_type;
     "data" := to_dict_records data_df;
     "created_at" := VStr (isoformat (now e 0));
     "row_count" := VInt (length data_df) ]}.

Definition save_column_mappings (e : Env) (user_id : option string)
    (file_id : string) (mappings : gmap string string) : M bool :=
  if demo_mode user_id then
    modify (set_session (store_mapping file_id (session_entry e mappings))) >>
    ret true
  else
    let! db := get_db e in
    match db with
    | None => ret false
    | Some _ =>
        try_except
          (add e Mappings (uid user_id) (mapping_doc e file_id mappings) >>
           ret true)
          (λ msg, emit (StError ("Error saving mappings: " +:+ msg)) >>
                  ret false)
    end.

Definition get_existing_mappings (e : Env) (user_id : option string)
    (file_name : string) : M (option value) :=
  if negb (truthy user_id) then ret None
  else if startswith (uid user_id) demo_prefix then
    let! w := get_world in
    match saved_mappings (session w) with
    | Some saved =>
        match saved !! file_name with
        | Some entry =>
            match entry !! "mappings" with
            | Some m => ret (Some m)
            | None => raise "'mappings'"
            end
        | None => ret None
        end
    | None => ret None
    end
  else
    let! db := get_db e in
    match db with
    | None => ret None
    | Some _ =>
        try_except
          (let! similar_mappings :=
             query e Mappings (uid user_id)
                   (Some ("file_name", VStr file_name)) (Some 1) in
           match similar_mappings with
           | [] => ret None
           | (id, mapping_data) :: _ =>
               update e Mappings (uid user_id) id
                      {[ "last_used" := VStr (isoformat (now e 0)) ]} >>
               match mapping_data !! "mappings" with
               | Some m => ret (Some m)
               | None => raise "'mappings'"
               end
           end)
          (λ msg,
             emit (StWarning ("Could not retrieve existing mappings: " +:+ msg)) >>
             ret None)
    end.

Definition update_column_mappings (e : Env) (user_id : option string)
    (file_id : string) (updated_mappings : gmap string string) : M bool :=
  if demo_mode user_id then
    modify (set_session (store_mapping file_id (session_entry e updated_mappings))) >>
    ret true
  else
    let! db := get_db e in
    match db with
    | None => ret false
    | Some _ =>
        try_except
          (let mapping_doc := updated_doc e file_id updated_mappings in
           let! existing_docs :=
             query e Mappings (uid user_id)
                   (Some ("file_name", VStr file_id)) (Some 1) in
           match existing_docs with
           | (id, _) :: _ =>
               update e Mappings (uid user_id) id mapping_doc >>
               ret true
           | [] =>
               add e Mappings (uid user_id) mapping_doc >>
               ret true
           end)
          (λ msg, emit (StError ("Error updating mappings: " +:+ msg)) >>
                  ret false)
    end.

Definition save_financial_data (e : Env) (user_id : option string)
    (data_type : string) (data_df : dataframe) : M (bool * option string) :=
  if demo_mode user_id then
    let data_id := data_id e data_type in
    modify (set_session (store_financial_data data_id
                           (financial_record e data_type data_df))) >>
    ret (true, Some data_id)
  else
    let! db := get_db e in
    match db with
    | None => ret (false, None)
    | Some _ =>
        try_except
          (let data_dict := data_dict e data_type data_df in
           let! doc_ref := add e FinancialData (uid user_id) data_dict in
           let! id := read_id doc_ref in
           ret (true, Some id))
          (λ msg, emit (StError ("Error saving financial data: " +:+ msg)) >>
                  ret (false, None))
    end.

(** The loop [for doc in docs: result[doc.id] = doc.to_dict()]. *)
Definition collect (docs : list (string * doc)) : collection :=
  foldl (λ result d, <[d.1 := d.2]> result) ∅ docs.

Definition get_user_financial_data (e : Env) (user_id : option string)
    (data_type : option string) : M collection :=
  if negb (truthy user_id) then ret ∅
  else if startswith (uid user_id) demo_prefix then
    let! w := get_world in
    match saved_financial_data (session w) with
    | None => ret ∅
    | Some saved =>
        if truthy data_type then
          ret (filter (λ kv, kv.2 !! "type" = (VStr <$> data_type)) saved)
        else ret saved
    end
  else
    let! db := get_db e in
    match db with
    | None => ret ∅
    | Some _ =>
        try_except
          (let! docs :=
             query e FinancialData (uid user_id)
                   (if truthy data_type
                    then Some ("type", VStr (default "" data_type))
                    else None)
                   None in
           ret (collect docs))
          (λ msg,
             emit (StWarning ("Could not retrieve financial data: " +:+ msg)) >>
             ret ∅)
    end.

(** Running an operation: its result and the world it leaves. *)
Definition result {A} (r : outcome A * World) : outcome A := r.1.
Definition after {A} (r : outcome A * World) : World := r.2.

(** ** The five operations as one entry point *)

Inductive operation :=
  | SaveColumnMappings (file_id : string) (mappings : gmap string string)
  | GetExistingMappings (file_name : string)
  | UpdateColumnMappings (file_id : string) (updated_mappings : gmap string string)
  | SaveFinancialData (data_type : string) (data_df : dataframe)
  | GetUserFinancialData (data_type : option string).

Inductive answer :=
  | Flag (b : bool)
  | Found (m : option value)
  | Saved (r : bool * option string)
  | Records (c : collection).

Definition exec (e : Env) (user_id : option string) (op : operation) : M answer :=
  match op with
  | SaveColumnMappings f m =>
      let! b := save_column_mappings e user_id f m in ret (Flag b)
  | GetExistingMappings f =>
      let! r := get_existing_mappings e user_id f in ret (Found r)
  | UpdateColumnMappings f m =>
      let! b := update_column_mappings e user_id f m in ret (Flag b)
  | SaveFinancialData t df =>
      let! r := save_financial_data e user_id t df in ret (Saved r)
  | GetUserFinancialData t =>
      let! r := get_user_financial_data e user_id t in ret (Records r)
  end.

(** What each operation returns when it gives up. *)
Definition failure_shape (op : operation) : answer :=
  match op with
  | SaveColumnMappings _ _ | UpdateColumnMappings _ _ => Flag false
  | GetExistingMappings _ => Found None
  | SaveFinancialData _ _ => Saved (false, None)
  | GetUserFinancialData _ => Records ∅
  end.


(** Every entry written under [saved_mappings] carries a ["mappings"] field. *)
Definition session_ok (s : Session) : Prop :=
  ∀ saved f entry,
    saved_mappings s = Some saved → saved !! f = Some entry →
    is_Some (entry !! "mappings").

Definition empty_world : World :=
  MkWorld (MkSession None None) (MkFirestore ∅ ∅) [].

(** ** Definitions the statements use *)

(** The backend is reached when a call on the Firestore client, raising or
    not, shows in what the operation logged. *)
Definition reaches_backend (e : Env) (u : option string) (op : operation)
    (w : World) : Prop :=
  ∃ evs r raised,
    trace (after (exec e u op w)) = trace w ++ evs ∧ Rpc r raised ∈ evs.

(** A clock stopped at noon, and a backend that is up and raises nothing,
    drawing [id] for the next document. *)
Definition noon : datetime := Datetime.Make 2024 1 2 12 0 0 0.
Definition calm (id : string) : Env := MkEnv (λ _, noon) true (λ _, None) id.

(** The session state after the demo id [demo_user_a_b_com] saved a mapping
    and a budget. *)
Definition after_demo_saves : World :=
  after (save_financial_data (calm "A") (Some "demo_user_a_b_com") "budget"
           [ {[ "item" := "rent" ]} ]
           (after (save_column_mappings (calm "A") (Some "demo_user_a_b_com")
                     "bank.csv" {[ "Date" := "date" ]} empty_world))).

(** An app is registered but [firestore.client()] raises, as it does when
    no project id can be found. *)
Definition client_broken : Env :=
  MkEnv (λ _, noon) true
        (λ r, if r is Client
              then Some "Project ID is required to access Firestore."
              else None) "A".

(** A backend that refuses every [add]. *)
Definition add_unavailable : Env :=
  MkEnv (λ _, noon) true
        (λ r, if r is Add _ then Some "503 unavailable" else None) "A".

(** The same second, 0.73 s later. *)
Definition noon_later : datetime := Datetime.Make 2024 1 2 12 0 0 730000.
Definition calm_later (id : string) : Env :=
  MkEnv (λ _, noon_later) true (λ _, None) id.

(** A budget of two rows. *)
Definition two_rows : dataframe :=
  [ {[ "item" := "rent"; "amount" := "1200" ]};
    {[ "item" := "food"; "amount" := "400" ]} ].

(** The world after the user [u1] saved a budget of two rows, written to
    Firestore under document id [A]. *)
Definition after_remote_save : World :=
  after (save_financial_data (calm "A") (Some "u1") "budget" two_rows
           empty_world).

(** The records a user id can read: the session dict in demo mode, the
    user's own [financial_data] collection otherwise. *)
Definition stored_financial_data (u : option string) (w : World) : collection :=
  if demo_mode u then default ∅ (saved_financial_data (session w))
  else get_collection FinancialData (uid u) (firestore w).

(** [records] narrowed to a data type, as both branches do it: a data type
    that is [None] or empty narrows nothing. *)
Definition narrowed (data_type : option string) (records : collection)
  : collection :=
  if truthy data_type
  then filter (λ kv, kv.2 !! "type" = Some (VStr (default "" data_type))) records
  else records.

(** No document of the collection carries the file label. *)
Definition no_mapping_for (file_id : string) (docs : collection) : Prop :=
  ∀ id d, docs !! id = Some d → d !! "file_name" ≠ Some (VStr file_id).

(** The Firestore tree after the user [u1] saved a mapping for [bank.csv]
    (document id [A]) and then another one for the same file (id [B]). *)
Definition after_two_saves : World :=
  after (save_column_mappings (calm "B") (Some "u1") "bank.csv"
           {[ "Date" := "date"; "Amt" := "amount" ]}
           (after (save_column_mappings (calm "A") (Some "u1") "bank.csv"
                     {[ "Date" := "posted" ]} empty_world))).

(** The snapshot [where("file_name", "==", f).limit(1).get()] yields, if
    any: of the documents with the file label, the one with the least id. *)
Definition first_match (f : string) (docs : collection) : option (string * doc) :=
  head (filter (λ d : string * doc, d.2 !! "file_name" = Some (VStr f))
               (in_id_order docs)).

(** What [st.error] / [st.warning] shows when the operation gives up on an
    exception with text [msg]. *)
Definition failure_message (op : operation) (msg : string) : event :=
  match op with
  | SaveColumnMappings _ _ => StError ("Error saving mappings: " +:+ msg)
  | GetExistingMappings _ =>
      StWarning ("Could not retrieve existing mappings: " +:+ msg)
  | UpdateColumnMappings _ _ => StError ("Error updating mappings: " +:+ msg)
  | SaveFinancialData _ _ => StError ("Error saving financial data: " +:+ msg)
  | GetUserFinancialData _ =>
      StWarning ("Could not retrieve financial data: " +:+ msg)
  end.

(** The text of the exception a call on the client raises when it raises:
    the one the surroundings chose, or else Firestore's refusal of an [add]
    over an existing document or of an [update] of a missing one. *)
Definition exception_text (e : Env) (r : rpc) : string :=
  match raises e r with
  | Some msg => msg
  | None =>
      match r with
      | Add _ => "409 Document already exists"
      | Update _ => "404 No document to update"
      | _ => ""
      end
  end.

(** At most one document of the collection carries the file label. *)
Definition at_most_one_mapping_for (f : string) (docs : collection) : Prop :=
  ∃ id, no_mapping_for f (delete id docs).

(** The world after the user [u1] saved one mapping for [bank.csv], under
    document id [A]. *)
Definition after_one_save : World :=
  after (save_column_mappings (calm "A") (Some "u1") "bank.csv"
           {[ "Date" := "posted" ]} empty_world).

(** A run of calls, each with the surroundings it finds, the user id it is
    made for and the operation; the answers are dropped. *)
Fixpoint run_calls (calls : list (Env * option string * operation)) (w : World)
  : World :=
  match calls with
  | [] => w
  | (e, u, op) :: rest => run_calls rest (after (exec e u op w))
  end.

(** The ranges [datetime] keeps its fields in. *)
Definition valid_datetime (d : datetime) : Prop :=
  (1 ≤ year d ≤ 9999)%N ∧ (1 ≤ month d ≤ 12)%N ∧ (1 ≤ day d ≤ 31)%N ∧
  (hour d ≤ 23)%N ∧ (minute d ≤ 59)%N ∧ (second d ≤ 59)%N ∧
  (microsecond d ≤ 999999)%N.

(** ** auth_service.py: start-up, signing in and signing up *)

(** What [st.error] and [st.info] show. *)
Inductive notice :=
  | UiError (msg : string)
  | UiInfo (msg : string).

(** The steps of the body of [initialize_firebase] that can raise. *)
Inductive init_step :=
  | CertificateFromFile      (* [credentials.Certificate("serviceAccountKey.json")] *)
  | ReadSecrets              (* [st.secrets["firebase"]] *)
  | CertificateFromSecrets   (* [credentials.Certificate(key_dict)] *)
  | InitializeApp            (* [firebase_admin.initialize_app(cred)] *)
  | FirestoreClient.         (* [firestore.client()] *)

(** What the body finds when it runs: whether an app is registered
    ([firebase_admin._apps]), whether the key file is there, and which steps
    raise. *)
Record Bootstrap := MkBootstrap {
  apps : bool;
  key_file_exists : bool;
  step_raises : init_step → option string
}.

Definition step (b : Bootstrap) (s : init_step) : outcome unit :=
  match step_raises b s with
  | Some msg => Raise msg
  | None => Ret tt
  end.

(** The [except] branch of the body; [registered] tells whether
    [initialize_app] had gone through. *)
Definition initialization_failed (msg : string) (registered : bool)
  : option unit * list notice * bool :=
  (None,
   [UiError ("Firebase initialization error: " +:+ msg);
    UiInfo "Please ensure Firebase credentials are properly configured."],
   registered).

(** The body of [initialize_firebase], as run on a cache miss: what it
    returns (the SDK module or [None]), what it shows, and whether an app is
    registered afterwards. *)
Definition initialize_firebase_body (b : Bootstrap)
  : option unit * list notice * bool :=
  if apps b then (Some tt, [], true)
  else
    let cred :=
      if key_file_exists b then step b CertificateFromFile
      else match step b ReadSecrets with
           | Ret _ => step b CertificateFromSecrets
           | Raise msg => Raise msg
           end in
    match cred with
    | Raise msg => initialization_failed msg false
    | Ret _ =>
        match step b InitializeApp with
        | Raise msg => initialization_failed msg false
        | Ret _ =>
            match step b FirestoreClient with
            | Raise msg => initialization_failed msg true
            | Ret _ => (Some tt, [], true)
            end
        end
    end.

(** [s.replace(old, new)] for one-character [old] and [new]. *)
Fixpoint replace (old new : ascii) (s : string) : string :=
  match s with
  | EmptyString => EmptyString
  | String c rest =>
      String (if Ascii.eqb c old then new else c) (replace old new rest)
  end.

(** ["demo_user_" + email.replace("@", "_").replace(".", "_")] *)
Definition demo_user_id (email : string) : string :=
  demo_prefix +:+ replace "." "_" (replace "@" "_" email).

(** Firebase Auth (email to uid), the profile documents [users/{uid}], and
    what was shown. *)
Record Identity := MkIdentity {
  accounts : gmap string string;
  profiles : gmap string (gmap string value);
  notices : list notice
}.

Inductive auth_call :=
  | GetUserByEmail
  | CreateUser
  | ClientForProfile
  | SetProfile.

(** What the surroundings decide for one call of [login_user] or
    [create_user]: which calls raise, and the uid Firebase draws. *)
Record AuthEnv := MkAuthEnv {
  auth_raises : auth_call → option string;
  new_uid : string
}.

Definition Auth (T : Type) : Type := Identity → outcome T * Identity.

Definition pure_a {T} (x : T) : Auth T := λ s, (Ret x, s).
Definition raise_a {T} (msg : string) : Auth T := λ s, (Raise msg, s).
Definition bind_a {T U} (m : Auth T) (k : T → Auth U) : Auth U :=
  λ s, match m s with
       | (Ret x, s') => k x s'
       | (Raise msg, s') => (Raise msg, s')
       end.
Definition try_a {T} (body : Auth T) (handler : string → Auth T) : Auth T :=
  λ s, match body s with
       | (Ret x, s') => (Ret x, s')
       | (Raise msg, s') => handler msg s'
       end.
(** [st.error(msg)] *)
Definition st_error (msg : string) : Auth unit :=
  λ s, (Ret tt, MkIdentity (accounts s) (profiles s) (notices s ++ [UiError msg])).

(** [auth.get_user_by_email(email).uid] *)
Definition get_user_by_email (a : AuthEnv) (email : string) : Auth string :=
  match auth_raises a GetUserByEmail with
  | Some msg => raise_a msg
  | None =>
      λ s, match accounts s !! email with
           | Some uid => (Ret uid, s)
           | None =>
               (Raise ("No user record found for the provided email: "
                       +:+ email +:+ "."), s)
           end
  end.

(** [auth.create_user(email=..., password=..., email_verified=False).uid]:
    refused for an email that has an account. *)
Definition auth_create_user (a : AuthEnv) (email password : string) : Auth string :=
  match auth_raises a CreateUser with
  | Some msg => raise_a msg
  | None =>
      λ s, match accounts s !! email with
           | Some _ =>
               (Raise "The user with the provided email already exists (EMAIL_EXISTS).",
                s)
           | None =>
               (Ret (new_uid a),
                MkIdentity (<[email := new_uid a]> (accounts s)) (profiles s)
                           (notices s))
           end
  end.

(** [firestore.client()] inside [create_user]. *)
Definition client_for_profile (a : AuthEnv) : Auth unit :=
  match auth_raises a ClientForProfile with
  | Some msg => raise_a msg
  | None => pure_a tt
  end.

(** [db.collection("users").document(uid).set(data)] *)
Definition set_profile (a : AuthEnv) (uid : string) (data : gmap string value)
  : Auth unit :=
  match auth_raises a SetProfile with
  | Some msg => raise_a msg
  | None =>
      λ s, (Ret tt,
            MkIdentity (accounts s) (<[uid := data]> (profiles s)) (notices s))
  end.

(** The document [create_user] writes under [users/{uid}]. *)
Definition profile_doc (e : Env) (email : string) : gmap string value :=
  {[ "email" := VStr email;
     "created_at" := VStr (isoformat (now e 0));
     "settings" := VMapping {[ "currency" := "USD"; "theme" := "light" ]} ]}.

Definition login_user (e : Env) (a : AuthEnv) (email password : string)
  : Auth (option string) :=
  try_a
    (match initialize_firebase e with
     | None => pure_a (Some (demo_user_id email))
     | Some _ =>
         try_a
           (bind_a (get_user_by_email a email) (λ uid, pure_a (Some uid)))
           (λ msg, bind_a (st_error ("Login error: " +:+ msg))
                          (λ _, pure_a None))
     end)
    (λ msg, bind_a (st_error ("Login failed: " +:+ msg)) (λ _, pure_a None)).

Definition create_user (e : Env) (a : AuthEnv) (email password : string)
  : Auth (option string) :=
  try_a
    (match initialize_firebase e with
     | None => pure_a (Some (demo_user_id email))
     | Some _ =>
         bind_a (auth_create_user a email password) (λ uid,
         bind_a (client_for_profile a) (λ _,
         bind_a (set_profile a uid (profile_doc e email)) (λ _,
         pure_a (Some uid))))
     end)
    (λ msg, bind_a (st_error ("Account creation failed: " +:+ msg))
                   (λ _, pure_a None)).

(** The steps the body goes through when no app is registered. *)
Definition chosen_path (b : Bootstrap) : list init_step :=
  (if key_file_exists b then [CertificateFromFile]
   else [ReadSecrets; CertificateFromSecrets])
  ++ [InitializeApp; FirestoreClient].

(** A Firebase that raises nothing and draws [uid] for the next account. *)
Definition steady (uid : string) : AuthEnv := MkAuthEnv (λ _, None) uid.

(** One account, for [ann@example.com], with uid [U1]. *)
Definition ann_signed_up : Identity :=
  MkIdentity {[ "ann@example.com" := "U1" ]} ∅ [].

(** Nobody has signed up, nothing was shown. *)
Definition nobody : Identity := MkIdentity ∅ ∅ [].

(** * Properties *)

Ltac run :=
  cbv beta iota delta
    [exec save_column_mappings get_existing_mappings update_column_mappings
     save_financial_data get_user_financial_data add query update read_id
     failed get_db initialize_firebase emit modify bind ret raise try_except
     get_world result after log set_session set_firestore] in *.

Ltac case_atom :=
  match goal with
  | |- context [match ?x with _ => _ end] =>
      lazymatch x with
      | context [match _ with _ => _ end] => fail
      | _ => destruct x eqn:?
      end
  end.
Ltac cases := repeat (case_atom; simpl).

(** ** Dispatch *)

Lemma demo_mode_prefix u :
  startswith u demo_prefix = true → demo_mode (Some u) = true.
Proof. unfold demo_mode. intros ->. apply orb_true_r. Qed.

Lemma demo_mode_prefix_truthy u :
  startswith u demo_prefix = true → truthy (Some u) = true.
Proof. destruct u; [discriminate | reflexivity]. Qed.

Lemma demo_mode_false u :
  demo_mode u = false →
  truthy u = true ∧ startswith (uid u) demo_prefix = false.
Proof.
  destruct u as [u|]; [|discriminate]. unfold demo_mode. simpl uid.
  intros [H1 H2]%orb_false_iff. by apply negb_false_iff in H1.
Qed.

Lemma demo_mode_true u :
  demo_mode u = true →
  truthy u = false ∨ startswith (uid u) demo_prefix = true.
Proof.
  destruct u as [u|]; [|by left]. unfold demo_mode. simpl uid.
  intros [H1%negb_true_iff | H2]%orb_true_iff; auto.
Qed.

Lemma prefix_truthy u :
  startswith (uid u) demo_prefix = true → truthy u = true.
Proof. destruct u as [[|a u]|]; [discriminate | reflexivity | discriminate]. Qed.

(** An operation in demo mode stays in the process: no backend call, no
    message, and the Firestore tree is the one it found. *)
Lemma demo_mode_local e u op w :
  demo_mode u = true →
  trace (after (exec e u op w)) = trace w ∧
  firestore (after (exec e u op w)) = firestore w.
Proof.
  intros Hd. destruct (demo_mode_true _ Hd) as [Ht | Hp];
    [| pose proof (prefix_truthy _ Hp) as Ht];
    destruct op; run; rewrite ?Hd, ?Ht, ?Hp; simpl; cases; auto.
Qed.

(** Outside demo mode the first thing an operation does is [get_db()].
    With the client in hand the next thing is a call on it; without it,
    nothing more is logged. *)
Lemma remote_mode_trace e u op w :
  demo_mode u = false →
  ∃ evs,
    trace (after (exec e u op w)) = trace w ++ GetDb :: evs ∧
    if firebase_app e && bool_decide (raises e Client = None)
    then ∃ r raised rest, evs = Rpc r raised :: rest
    else evs = [].
Proof.
  intros Hd. destruct (demo_mode_false _ Hd) as [Ht Hp].
  destruct op; run; rewrite ?Hd, ?Ht, ?Hp; simpl;
    destruct (firebase_app e); simpl; [|eauto| |eauto| |eauto| |eauto| |eauto];
    (destruct (raises e Client); simpl; [eauto|]);
    cases; simpl; rewrite <- ?app_assoc; simpl; eauto 10.
Qed.

Lemma demo_mode_never_reaches e u op w :
  demo_mode u = true → ¬ reaches_backend e u op w.
Proof.
  intros Hd (evs & r & raised & Heq & Hin).
  destruct (demo_mode_local e u op w Hd) as [Ht _].
  rewrite Ht in Heq. rewrite <- (app_nil_r (trace w)) in Heq at 1.
  apply app_inv_head in Heq. subst evs. by apply not_elem_of_nil in Hin.
Qed.

(** C4 (as amended).  For each of the five operations a user id that begins
    with [demo_user_] is served from the session state: the call logs nothing,
    so no call on the Firestore client, and leaves the Firestore tree as it
    was.  The prefix is not the only test: an id that is empty or absent is
    kept in the process as well, and an id that is non-empty and lacks the
    prefix gets to the backend only through [get_db].  A call on the Firestore
    client is made exactly when the id is non-empty, lacks the prefix,
    Firebase is initialised and [firestore.client()] hands over the client. *)
Theorem C4_dispatch_by_emptiness_and_prefix e u op w :
  (startswith (uid u) demo_prefix = true →
     trace (after (exec e u op w)) = trace w ∧
     firestore (after (exec e u op w)) = firestore w) ∧
  (reaches_backend e u op w ↔
     truthy u = true ∧ startswith (uid u) demo_prefix = false ∧
     firebase_app e = true ∧ raises e Client = None).
Proof.
  split.
  - intros Hp. apply demo_mode_local.
    destruct u as [u|]; [by apply demo_mode_prefix | reflexivity].
  - destruct (demo_mode u) eqn:Hd.
    + split.
      * intros H. by apply demo_mode_never_reaches in H.
      * intros (Ht & Hp & _). destruct (demo_mode_true _ Hd); congruence.
    + destruct (demo_mode_false _ Hd) as [Ht Hp].
      destruct (remote_mode_trace e u op w Hd) as (evs & Hev & Hnext).
      split.
      * intros (evs' & r & raised & Hev' & Hin).
        rewrite Hev in Hev'. apply app_inv_head in Hev'. subst evs'.
        destruct (firebase_app e); simpl in Hnext;
          [case_bool_decide as Hclient; [done|] |];
          subst evs; apply elem_of_cons in Hin as [Hin | Hin];
          (discriminate || by apply not_elem_of_nil in Hin).
      * intros (_ & _ & Happ & Hclient).
        rewrite Happ, bool_decide_eq_true_2 in Hnext by done.
        destruct Hnext as (r & raised & rest & ->).
        exists (GetDb :: Rpc r raised :: rest), r, raised.
        split; [done|]. apply elem_of_cons. right. apply elem_of_cons. by left.
Qed.

Lemma C4_dispatch_witness :
  trace (after (exec (MkEnv (λ _, Datetime.Make 2024 1 2 3 4 5 0) true (λ _, None) "A")
                     (Some "demo_user_a_b_com")
                     (SaveColumnMappings "bank.csv" {[ "Date" := "date" ]})
                     empty_world)) = [] ∧
  firestore (after (exec (MkEnv (λ _, Datetime.Make 2024 1 2 3 4 5 0) true (λ _, None) "A")
                     (Some "demo_user_a_b_com")
                     (SaveColumnMappings "bank.csv" {[ "Date" := "date" ]})
                     empty_world)) = MkFirestore ∅ ∅.
Proof.
  apply (C4_dispatch_by_emptiness_and_prefix
           (MkEnv (λ _, Datetime.Make 2024 1 2 3 4 5 0) true (λ _, None) "A")
           (Some "demo_user_a_b_com")
           (SaveColumnMappings "bank.csv" {[ "Date" := "date" ]}) empty_world).
  reflexivity.
Defined.

(** C4 (as stated) fails on its last clause: the empty user id does not
    begin with [demo_user_], yet [save_column_mappings] keeps it in the
    process and writes the session state, so the prefix test is not the
    only test that picks the backend. *)
Lemma C4_prefix_not_sole_dispatch :
  ¬ (∀ e u op w,
       reaches_backend e u op w ↔ startswith (uid u) demo_prefix = false).
Proof.
  intros H.
  pose (e := MkEnv (λ _, Datetime.Make 2024 1 2 3 4 5 0) true (λ _, None) "A").
  destruct (H e (Some "") (SaveColumnMappings "bank.csv" ∅) empty_world)
    as [_ Hback].
  apply (demo_mode_never_reaches e (Some "")
           (SaveColumnMappings "bank.csv" ∅) empty_world); [reflexivity|].
  apply Hback. reflexivity.
Qed.

(** ** Empty and absent user ids *)

(** What the three writing operations do in demo mode. *)
Lemma save_column_mappings_demo e u f m w :
  demo_mode u = true →
  save_column_mappings e u f m w =
    (Ret true, set_session (store_mapping f (session_entry e m)) w).
Proof. intros Hd. run. by rewrite Hd. Qed.

Lemma update_column_mappings_demo e u f m w :
  demo_mode u = true →
  update_column_mappings e u f m w =
    (Ret true, set_session (store_mapping f (session_entry e m)) w).
Proof. intros Hd. run. by rewrite Hd. Qed.

Lemma save_financial_data_demo e u t df w :
  demo_mode u = true →
  save_financial_data e u t df w =
    (Ret (true, Some (data_id e t)),
     set_session (store_financial_data (data_id e t) (financial_record e t df)) w).
Proof. intros Hd. run. by rewrite Hd. Qed.

Lemma demo_mode_empty u : truthy u = false → demo_mode u = true.
Proof.
  destruct u as [u|]; [|done]. unfold demo_mode. by intros ->.
Qed.

(** C9 (as amended).  With an empty or absent user id the three writing
    operations succeed and write the session state, and the two reading
    operations answer [None] and the empty dict at once, whatever the
    session state or the Firestore tree holds, leaving the world as it is. *)
Theorem C9_empty_user_id e u w :
  truthy u = false →
  (∀ f m,
     save_column_mappings e u f m w =
       (Ret true, set_session (store_mapping f (session_entry e m)) w)) ∧
  (∀ f m,
     update_column_mappings e u f m w =
       (Ret true, set_session (store_mapping f (session_entry e m)) w)) ∧
  (∀ t df,
     save_financial_data e u t df w =
       (Ret (true, Some (data_id e t)),
        set_session
          (store_financial_data (data_id e t) (financial_record e t df)) w)) ∧
  (∀ f, get_existing_mappings e u f w = (Ret None, w)) ∧
  (∀ t, get_user_financial_data e u t w = (Ret ∅, w)).
Proof.
  intros Ht. pose proof (demo_mode_empty _ Ht) as Hd.
  repeat split; intros.
  - by apply save_column_mappings_demo.
  - by apply update_column_mappings_demo.
  - by apply save_financial_data_demo.
  - run. by rewrite Ht.
  - run. by rewrite Ht.
Qed.

Lemma C9_empty_user_id_witness :
  save_column_mappings (calm "A") (Some "") "bank.csv" {[ "Date" := "date" ]}
    empty_world
  = (Ret true,
     set_session
       (store_mapping "bank.csv" (session_entry (calm "A") {[ "Date" := "date" ]}))
       empty_world) ∧
  get_existing_mappings (calm "A") (Some "") "bank.csv" empty_world
  = (Ret None, empty_world).
Proof.
  destruct (C9_empty_user_id (calm "A") (Some "") empty_world eq_refl)
    as (Hsave & _ & _ & Hget & _).
  split; [apply Hsave | apply Hget].
Defined.

(** C9 (as stated) fails on reads: after a save under the empty user id
    the session state holds the mapping, a demo id reads it back, and a read
    under the empty id answers [None] without looking. *)
Lemma C9_empty_read_skips_session :
  let w := after (save_column_mappings (calm "A") (Some "") "bank.csv"
                    {[ "Date" := "date" ]} empty_world) in
  result (save_column_mappings (calm "A") (Some "") "bank.csv"
            {[ "Date" := "date" ]} empty_world) = Ret true ∧
  result (get_existing_mappings (calm "A") (Some "demo_user_a_b_com")
            "bank.csv" w) = Ret (Some (VMapping {[ "Date" := "date" ]})) ∧
  result (get_existing_mappings (calm "A") (Some "") "bank.csv" w) = Ret None ∧
  result (get_existing_mappings (calm "A") None "bank.csv" w) = Ret None.
Proof. vm_compute. repeat split. Qed.

(** ** Ownership *)

Lemma get_put_collection_ne c c' u u' docs fs :
  u' ≠ u →
  get_collection c' u' (put_collection c u docs fs) = get_collection c' u' fs.
Proof.
  intros Hne. unfold get_collection, put_collection.
  destruct c, c'; simpl; by rewrite ?lookup_insert_ne.
Qed.

Lemma get_put_collection_eq c u docs fs :
  get_collection c u (put_collection c u docs fs) = docs.
Proof.
  unfold get_collection, put_collection.
  destruct c; simpl; by rewrite lookup_insert_eq.
Qed.

(** An operation outside demo mode writes under [users/{user_id}] only and
    leaves the session state alone. *)
Lemma remote_mode_frame e u op w :
  demo_mode u = false →
  session (after (exec e u op w)) = session w ∧
  ∀ c u', u' ≠ uid u →
    get_collection c u' (firestore (after (exec e u op w)))
    = get_collection c u' (firestore w).
Proof.
  intros Hd. destruct (demo_mode_false _ Hd) as [Ht Hp].
  destruct op; run; rewrite ?Hd, ?Ht, ?Hp; simpl; cases; simpl;
    (split; [done|]); intros; by rewrite ?get_put_collection_ne.
Qed.





(** ** Failures *)

Lemma session_ok_empty : session_ok (session empty_world).
Proof. intros saved f entry Hs. discriminate. Qed.

Lemma session_entry_mappings e m :
  session_entry e m !! "mappings" = Some (VMapping m).
Proof. unfold session_entry. by simplify_map_eq. Qed.

Lemma store_mapping_ok f e m s :
  session_ok s → session_ok (store_mapping f (session_entry e m) s).
Proof.
  intros Hok saved f' entry [= <-] Hentry.
  destruct (decide (f = f')) as [->|Hne].
  - rewrite lookup_insert_eq in Hentry. injection Hentry as <-.
    rewrite session_entry_mappings. eauto.
  - rewrite lookup_insert_ne in Hentry by done.
    destruct (saved_mappings s) as [saved|] eqn:Hs; simpl in Hentry.
    + by eapply Hok.
    + by rewrite lookup_empty in Hentry.
Qed.

(** Every operation keeps the session state well formed. *)
Lemma session_ok_preserved e u op w :
  session_ok (session w) → session_ok (session (after (exec e u op w))).
Proof.
  intros Hok. destruct (demo_mode u) eqn:Hd.
  - destruct op.
    + unfold exec, bind, after. rewrite save_column_mappings_demo by done.
      by apply store_mapping_ok.
    + destruct (demo_mode_true _ Hd) as [Ht | Hp];
        [| pose proof (prefix_truthy _ Hp) as Ht];
        run; rewrite ?Ht, ?Hp; simpl; cases; done.
    + unfold exec, bind, after. rewrite update_column_mappings_demo by done.
      by apply store_mapping_ok.
    + unfold exec, bind, after. rewrite save_financial_data_demo by done.
      exact Hok.
    + destruct (demo_mode_true _ Hd) as [Ht | Hp];
        [| pose proof (prefix_truthy _ Hp) as Ht];
        run; rewrite ?Ht, ?Hp; simpl; cases; done.
  - by destruct (remote_mode_frame e u op w Hd) as [-> _].
Qed.

(** Which exceptions leave an operation: the one [firestore.client()]
    raises in [get_db], which every operation calls before its [try]; and the
    [KeyError] of the demo read of a session entry without ["mappings"]. *)
Lemma exec_raises_iff e u op w msg :
  result (exec e u op w) = Raise msg ↔
  (demo_mode u = false ∧ firebase_app e = true ∧ raises e Client = Some msg) ∨
  (∃ f saved entry,
     op = GetExistingMappings f ∧ startswith (uid u) demo_prefix = true ∧
     saved_mappings (session w) = Some saved ∧ saved !! f = Some entry ∧
     entry !! "mappings" = None ∧ msg = "'mappings'").
Proof.
  assert (result (exec e u op w) = Raise msg ↔
          (demo_mode u = false ∧ firebase_app e = true ∧
           raises e Client = Some msg) ∨
          (∃ f saved entry,
             op = GetExistingMappings f ∧
             startswith (uid u) demo_prefix = true ∧
             saved_mappings (session w) = Some saved ∧
             saved !! f = Some entry ∧
             entry !! "mappings" = None ∧ msg = "'mappings'")); [|done].
  destruct (demo_mode u) eqn:Hd.
  - destruct (demo_mode_true _ Hd) as [Ht | Hp].
    + assert (startswith (uid u) demo_prefix = false) as Hp.
      { destruct (startswith (uid u) demo_prefix) eqn:Hp; [|done].
        apply prefix_truthy in Hp. congruence. }
      destruct op; run; rewrite ?Hd, ?Ht; simpl;
        (split; [discriminate|]);
        intros [(? & ? & ?) | (? & ? & ? & ? & ? & ? & ? & ? & ->)];
        congruence.
    + pose proof (prefix_truthy _ Hp) as Ht.
      destruct op; run; rewrite ?Hd, ?Ht, ?Hp; simpl; cases;
        (split;
         [ intros Hres; try discriminate Hres; injection Hres as <-;
           right; by eauto 10
         | intros [(? & ? & ?) | (? & ? & ? & ? & ? & ? & ? & ? & ->)];
           congruence ]).
  - destruct (demo_mode_false _ Hd) as [Ht Hp].
    destruct op; run; rewrite ?Hd, ?Ht, ?Hp; simpl; cases;
      (split;
       [ intros Hres; try discriminate Hres; injection Hres as <-;
         left; by repeat split
       | intros [(? & ? & ?) | (? & ? & ? & ? & ? & ? & ? & ? & ->)];
         congruence ]).
Qed.

(** A failed start-up and a call on the client that raises end in the
    failure result of the operation. *)
Lemma failure_gives_failure_shape e u op w evs :
  trace (after (exec e u op w)) = trace w ++ evs →
  (GetDb ∈ evs ∧ firebase_app e = false) ∨ (∃ r, Rpc r true ∈ evs) →
  result (exec e u op w) = Ret (failure_shape op).
Proof.
  intros Hevs Hfail. destruct (demo_mode u) eqn:Hd.
  - destruct (demo_mode_local e u op w Hd) as [Ht _]. rewrite Ht in Hevs.
    rewrite <- (app_nil_r (trace w)) in Hevs at 1.
    apply app_inv_head in Hevs. subst evs.
    destruct Hfail as [[Hin _] | [r Hin]]; by apply not_elem_of_nil in Hin.
  - destruct (demo_mode_false _ Hd) as [Ht Hp]. revert Hevs.
    destruct op; run; rewrite ?Hd, ?Ht, ?Hp; simpl; cases;
      rewrite <- ?app_assoc; simpl;
      intros Hevs; apply app_inv_head in Hevs; subst evs;
      try reflexivity;
      (destruct Hfail as [[_ ?] | [r Hin]]; [congruence|]);
      repeat (apply elem_of_cons in Hin as [Hin | Hin]; [discriminate|]);
      by apply not_elem_of_nil in Hin.
Qed.

(** C7, at a failing input.  An app is registered, so
    [initialize_firebase] hands back the SDK module, and [firestore.client()]
    raises.  [get_db] makes that call outside any [try], and each of the five
    operations calls [get_db] before its own [try]: made for a signed-in
    user, the operation lets the exception through, having logged the
    [get_db()] call and nothing else, instead of answering its failure
    result.  (In [create_user] and in [initialize_firebase] the same call
    stands inside the [try].) *)
Theorem C7_client_fault_propagates e u op w msg :
  demo_mode u = false → firebase_app e = true → raises e Client = Some msg →
  exec e u op w = (Raise msg, log GetDb w).
Proof.
  intros Hd Happ Hclient. destruct (demo_mode_false _ Hd) as [Ht Hp].
  destruct op; run; by rewrite ?Hd, ?Ht, ?Hp, Happ, Hclient.
Qed.

Lemma C7_client_fault_propagates_witness :
  exec client_broken (Some "u1")
       (SaveColumnMappings "bank.csv" {[ "Date" := "date" ]}) empty_world
  = (Raise "Project ID is required to access Firestore.",
     log GetDb empty_world) ∧
  exec client_broken (Some "u1") (GetUserFinancialData None) empty_world
  = (Raise "Project ID is required to access Firestore.",
     log GetDb empty_world).
Proof.
  split.
  - apply (C7_client_fault_propagates client_broken (Some "u1")
             (SaveColumnMappings "bank.csv" {[ "Date" := "date" ]})
             empty_world); reflexivity.
  - apply (C7_client_fault_propagates client_broken (Some "u1")
             (GetUserFinancialData None) empty_world); reflexivity.
Defined.

(** X23.  What each of the five operations catches and what it lets
    through.  A start-up that failed ([get_db] gives [None]) and any call on
    the Firestore client that raises end in the failure result of the
    operation: [False] for the two mapping writes, [None] for
    [get_existing_mappings], [(False, None)] for [save_financial_data], the
    empty dict for [get_user_financial_data].  An exception leaves the
    operation in two cases and no other: [firestore.client()] raises inside
    [get_db], in a call made for a signed-in user with Firebase initialised;
    or the demo read [get_existing_mappings] finds a session entry without
    ["mappings"].  So a call in a well-formed session state, with a client
    that can be had, returns a value. *)
Theorem failures_caught_inside_try e u op w :
  (∀ evs,
     trace (after (exec e u op w)) = trace w ++ evs →
     (GetDb ∈ evs ∧ firebase_app e = false) ∨ (∃ r, Rpc r true ∈ evs) →
     result (exec e u op w) = Ret (failure_shape op)) ∧
  (∀ msg,
     result (exec e u op w) = Raise msg ↔
     (demo_mode u = false ∧ firebase_app e = true ∧
      raises e Client = Some msg) ∨
     (∃ f saved entry,
        op = GetExistingMappings f ∧ startswith (uid u) demo_prefix = true ∧
        saved_mappings (session w) = Some saved ∧ saved !! f = Some entry ∧
        entry !! "mappings" = None ∧ msg = "'mappings'")) ∧
  (session_ok (session w) →
   (firebase_app e = true → raises e Client = None) →
   ∃ a, result (exec e u op w) = Ret a).
Proof.
  split; [intros evs; apply failure_gives_failure_shape|].
  split; [intros msg; apply exec_raises_iff|].
  intros Hok Hclient.
  destruct (result (exec e u op w)) as [a | msg] eqn:Hres; [by eauto|].
  apply exec_raises_iff in Hres
    as [(_ & Happ & Hraise)
       | (f & saved & entry & _ & _ & Hsaved & Hentry & Hnone & _)].
  - rewrite (Hclient Happ) in Hraise. discriminate.
  - destruct (Hok saved f entry Hsaved Hentry) as [m Hm]. congruence.
Qed.

(** A signed-in user, a backend that refuses every [add]: the save ends in
    [(False, None)]. *)
Lemma failures_caught_inside_try_witness :
  ∃ a,
    result (exec add_unavailable (Some "u1")
              (SaveFinancialData "budget" [ {[ "item" := "rent" ]} ])
              empty_world) = Ret a.
Proof.
  destruct (failures_caught_inside_try add_unavailable (Some "u1")
              (SaveFinancialData "budget" [ {[ "item" := "rent" ]} ])
              empty_world) as (_ & _ & Hreturns).
  apply Hreturns.
  - intros saved f entry Hs. discriminate.
  - reflexivity.
Defined.

(** ** Financial records *)

Lemma strftime_same_second a b :
  same_second a b → strftime_YmdHMS a = strftime_YmdHMS b.
Proof.
  intros (Hy & Hmo & Hd & Hh & Hmi & Hs). unfold strftime_YmdHMS.
  by rewrite Hy, Hmo, Hd, Hh, Hmi, Hs.
Qed.


(** What [save_financial_data] does outside demo mode.  When [add] goes
    through, the record is in Firestore and the attribute read on the tuple
    that [add] returned raises, so the call ends in its [except] branch. *)
Lemma save_financial_data_remote e u t df w :
  demo_mode u = false →
  let docs := get_collection FinancialData (uid u) (firestore w) in
  save_financial_data e u t df w
  = if firebase_app e then
      match raises e Client with
      | Some msg => (Raise msg, log GetDb w)
      | None =>
          match raises e (Add FinancialData) with
          | Some msg =>
              (Ret (false, None),
               log (StError ("Error saving financial data: " +:+ msg))
                 (log (Rpc (Add FinancialData) true) (log GetDb w)))
          | None =>
              match docs !! auto_id e with
              | Some _ =>
                  (Ret (false, None),
                   log (StError ("Error saving financial data: "
                                 +:+ "409 Document already exists"))
                     (log (Rpc (Add FinancialData) true) (log GetDb w)))
              | None =>
                  (Ret (false, None),
                   log (StError ("Error saving financial data: "
                                 +:+ "'tuple' object has no attribute 'id'"))
                     (set_firestore
                        (put_collection FinancialData (uid u)
                           (<[auto_id e := data_dict e t df]> docs))
                        (log (Rpc (Add FinancialData) false) (log GetDb w))))
              end
          end
      end
    else (Ret (false, None), log GetDb w).
Proof.
  intros Hd. run. rewrite Hd. simpl. cases; done.
Qed.





(** ** The budget scenario *)

(** C8.  At the scenario of the specification: the demo save answers
    [(True, "budget_20240102120000")] and the read that follows holds that id,
    but the record kept in the session state has the three fields [type],
    [data] and [created_at] and no [row_count]; the record the same call
    writes to Firestore for a signed-in user does carry [row_count], here 2. *)
Theorem C8_demo_record_lacks_row_count :
  result (save_financial_data (calm "A") (Some "demo_user_a_b_com") "budget"
            two_rows empty_world)
    = Ret (true, Some "budget_20240102120000") ∧
  result (get_user_financial_data (calm "A") (Some "demo_user_a_b_com")
            (Some "budget")
            (after (save_financial_data (calm "A") (Some "demo_user_a_b_com")
                      "budget" two_rows empty_world)))
    = Ret {[ "budget_20240102120000" :=
               {[ "type" := VStr "budget";
                  "data" := VRecords two_rows;
                  "created_at" := VStr "2024-01-02T12:00:00" ]} ]} ∧
  financial_record (calm "A") "budget" two_rows !! "row_count" = None ∧
  get_collection FinancialData "u1"
    (firestore (after (save_financial_data (calm "A") (Some "u1") "budget"
                         two_rows empty_world))) !! "A"
    = Some (data_dict (calm "A") "budget" two_rows) ∧
  data_dict (calm "A") "budget" two_rows !! "row_count" = Some (VInt 2).
Proof. repeat split; vm_compute; reflexivity. Qed.

(** ** Reading financial data *)

Lemma foldl_insert_union (l : list (string * doc)) (m : collection) :
  NoDup l.*1 →
  foldl (λ result d, <[d.1 := d.2]> result) m l = list_to_map l ∪ m.
Proof.
  revert m. induction l as [|[k v] l IH]; intros m Hnd; simpl.
  - by rewrite (left_id_L ∅ (∪)).
  - apply NoDup_cons in Hnd as [Hk Hnd]. rewrite IH by done.
    rewrite <- insert_union_l. apply eq_sym, insert_union_r.
    by apply not_elem_of_list_to_map_1.
Qed.

Lemma collect_list_to_map (l : list (string * doc)) :
  NoDup l.*1 → collect l = list_to_map l.
Proof.
  intros Hnd. unfold collect. rewrite foldl_insert_union by done.
  by rewrite (right_id_L ∅ (∪)).
Qed.

Lemma in_id_order_Permutation (docs : collection) :
  in_id_order docs ≡ₚ map_to_list docs.
Proof. apply merge_sort_Permutation. Qed.

Lemma in_id_order_NoDup (docs : collection) : NoDup (in_id_order docs).*1.
Proof.
  rewrite in_id_order_Permutation. apply NoDup_fst_map_to_list.
Qed.

Lemma filter_NoDup_fst (P : string * doc → Prop) `{!∀ x, Decision (P x)}
    (l : list (string * doc)) :
  NoDup l.*1 → NoDup (filter P l).*1.
Proof.
  intros Hnd. eapply sublist_NoDup; [exact Hnd|].
  apply fmap_sublist, sublist_filter.
Qed.

(** The dict built from a whole collection is the collection. *)
Lemma collect_all (docs : collection) : collect (in_id_order docs) = docs.
Proof.
  rewrite collect_list_to_map by apply in_id_order_NoDup.
  rewrite (list_to_map_proper _ (map_to_list docs))
    by (apply in_id_order_NoDup || apply in_id_order_Permutation).
  apply list_to_map_to_list.
Qed.

(** The dict built from a [where] query is the collection filtered. *)
Lemma collect_where (P : string * doc → Prop) `{!∀ x, Decision (P x)}
    (docs : collection) :
  collect (filter P (in_id_order docs)) = filter P docs.
Proof.
  rewrite collect_list_to_map
    by (apply filter_NoDup_fst, in_id_order_NoDup).
  rewrite map_filter_alt. apply list_to_map_proper.
  - apply filter_NoDup_fst, in_id_order_NoDup.
  - by rewrite in_id_order_Permutation.
Qed.

(** What [get_user_financial_data] answers, case by case. *)
Lemma get_user_financial_data_result e u dt w :
  result (get_user_financial_data e u dt w)
  = if demo_mode u then
      Ret (if truthy u
           then narrowed dt (default ∅ (saved_financial_data (session w)))
           else ∅)
    else if firebase_app e then
      match raises e Client with
      | Some msg => Raise msg
      | None =>
          match raises e (Query FinancialData) with
          | Some _ => Ret ∅
          | None =>
              Ret (narrowed dt
                     (get_collection FinancialData (uid u) (firestore w)))
          end
      end
    else Ret ∅.
Proof.
  unfold narrowed. destruct (demo_mode u) eqn:Hd.
  - destruct (demo_mode_true _ Hd) as [Ht | Hp];
      [| pose proof (prefix_truthy _ Hp) as Ht];
      run; rewrite ?Ht, ?Hp; simpl; [done|].
    destruct (saved_financial_data (session w)) as [saved|]; simpl.
    + destruct dt as [dt|]; simpl; [|done].
      by destruct (negb (String.eqb dt "")).
    + destruct (truthy dt); [by rewrite map_filter_empty | done].
  - destruct (demo_mode_false _ Hd) as [Ht Hp].
    run; rewrite ?Ht, ?Hp; simpl.
    destruct (firebase_app e); simpl; [|done].
    destruct (raises e Client); simpl; [done|].
    destruct (raises e (Query FinancialData)); simpl; [done|].
    destruct (truthy dt); simpl.
    + by rewrite (collect_where _).
    + by rewrite collect_all.
Qed.

(** C6 (as amended).  For every user id and every non-empty data type, two
    reads in one state of the world, each with the surroundings it finds.
    Unless [firestore.client()] raises in [get_db], a read returns a dict.
    Each record of the read with the data type has that data type in its
    [type] field.  When the read without a data type is answered (in demo
    mode; or with Firebase initialised and the query not raising) it holds
    every record of the read with the data type, under the same id; a read
    that is not answered returns the empty dict.  A user with nothing stored
    gets the empty dict from both. *)
Theorem C6_filtered_read e e' u t w :
  t ≠ "" →
  (demo_mode u = false → firebase_app e = true → raises e Client = None) →
  (demo_mode u = false → firebase_app e' = true → raises e' Client = None) →
  ∃ every some_,
    result (get_user_financial_data e u None w) = Ret every ∧
    result (get_user_financial_data e' u (Some t) w) = Ret some_ ∧
    (demo_mode u = true ∨
     firebase_app e = true ∧ raises e (Query FinancialData) = None →
     some_ ⊆ every) ∧
    (∀ id d, some_ !! id = Some d → d !! "type" = Some (VStr t)) ∧
    (stored_financial_data u w = ∅ → every = ∅ ∧ some_ = ∅).
Proof.
  intros Hne Hclient Hclient'.
  assert (truthy (Some t) = true) as Htruthy.
  { simpl. apply negb_true_iff, String.eqb_neq, Hne. }
  assert (∀ records : collection, narrowed (Some t) records ⊆ records) as Hsub.
  { intros records. unfold narrowed. rewrite Htruthy.
    apply map_filter_subseteq. }
  assert (∀ (records : collection) id d,
            narrowed (Some t) records !! id = Some d →
            d !! "type" = Some (VStr t)) as Htyped.
  { intros records id d. unfold narrowed. rewrite Htruthy.
    rewrite map_lookup_filter_Some. by intros [_ ?]. }
  assert (narrowed (Some t) (∅ : collection) = ∅) as Hnone.
  { unfold narrowed. rewrite Htruthy. apply map_filter_empty. }
  rewrite !get_user_financial_data_result. unfold stored_financial_data.
  destruct (demo_mode u) eqn:Hd.
  - destruct (truthy u).
    + eexists _, _. split; [done|]. split; [done|].
      split; [intros _; apply Hsub|]. split; [apply Htyped|].
      intros ->. by rewrite Hnone.
    + exists ∅, ∅. split; [done|]. split; [done|].
      split; [done|]. split; [intros id d; by rewrite lookup_empty | done].
  - specialize (Hclient eq_refl). specialize (Hclient' eq_refl).
    assert (∀ every : collection,
              (every = ∅ ∨
               every = get_collection FinancialData (uid u) (firestore w)) →
              (firebase_app e = true ∧ raises e (Query FinancialData) = None →
               every = get_collection FinancialData (uid u) (firestore w)) →
              ∃ some_ : collection,
                (if firebase_app e' then
                   match raises e' Client with
                   | Some msg => Raise msg
                   | None =>
                       match raises e' (Query FinancialData) with
                       | Some _ => Ret ∅
                       | None =>
                           Ret (narrowed (Some t)
                                  (get_collection FinancialData (uid u)
                                     (firestore w)))
                       end
                   end
                 else Ret ∅) = Ret some_ ∧
                (false = true ∨
                 firebase_app e = true ∧ raises e (Query FinancialData) = None →
                 some_ ⊆ every) ∧
                (∀ id d, some_ !! id = Some d → d !! "type" = Some (VStr t)) ∧
                (get_collection FinancialData (uid u) (firestore w) = ∅ →
                 every = ∅ ∧ some_ = ∅)) as Hsome.
    { intros every Hevery Hanswered.
      destruct (firebase_app e');
        [rewrite Hclient' by done;
         destruct (raises e' (Query FinancialData))|].
      2:{ eexists. split; [done|].
          split; [intros [? | Ha]; [done|]; rewrite (Hanswered Ha); apply Hsub|].
          split; [apply Htyped|]. intros Hempty. rewrite Hempty, Hnone.
          destruct Hevery as [-> | ->]; done. }
      all: exists ∅; split; [done|]; split; [intros _; apply map_empty_subseteq|];
        split; [intros id d; by rewrite lookup_empty|];
        intros Hempty; destruct Hevery as [-> | ->]; done. }
    destruct (firebase_app e) eqn:Happ.
    + rewrite Hclient by done.
      destruct (raises e (Query FinancialData)) eqn:Hq.
      * destruct (Hsome ∅) as (some_ & ?); [by left | by intros [_ ?] |].
        by exists ∅, some_.
      * destruct (Hsome (get_collection FinancialData (uid u) (firestore w)))
          as (some_ & ?); [by right | done |].
        by eexists _, some_.
    + destruct (Hsome ∅) as (some_ & ?); [by left | by intros [? _] |].
      by exists ∅, some_.
Qed.

(** The user [u1] with a budget in Firestore, read twice. *)
Lemma C6_filtered_read_witness :
  ∃ every some_,
    result (get_user_financial_data (calm "B") (Some "u1") None
              after_remote_save) = Ret every ∧
    result (get_user_financial_data (calm "C") (Some "u1") (Some "budget")
              after_remote_save) = Ret some_ ∧
    (demo_mode (Some "u1") = true ∨
     firebase_app (calm "B") = true ∧
     raises (calm "B") (Query FinancialData) = None →
     some_ ⊆ every) ∧
    (∀ id d, some_ !! id = Some d → d !! "type" = Some (VStr "budget")) ∧
    (stored_financial_data (Some "u1") after_remote_save = ∅ →
     every = ∅ ∧ some_ = ∅).
Proof.
  apply (C6_filtered_read (calm "B") (calm "C") (Some "u1") "budget"
           after_remote_save).
  - discriminate.
  - reflexivity.
  - reflexivity.
Defined.

(** C6 (as stated) fails at the empty data type: [if data_type:] takes it
    for no data type, so the read returns the budget record, whose [type] is
    not the empty string. *)
Lemma C6_empty_type_not_filtered :
  result (get_user_financial_data (calm "A") (Some "demo_user_a_b_com")
            (Some "") after_demo_saves)
    = Ret {[ "budget_20240102120000" :=
               financial_record (calm "A") "budget" [ {[ "item" := "rent" ]} ] ]} ∧
  financial_record (calm "A") "budget" [ {[ "item" := "rent" ]} ] !! "type"
    = Some (VStr "budget") ∧
  VStr "budget" ≠ VStr "".
Proof.
  split; [vm_compute; reflexivity|]. split; [vm_compute; reflexivity|].
  discriminate.
Qed.

(** ** Column mappings *)

Lemma where_no_match (f : string) (docs : collection) :
  no_mapping_for f docs →
  filter (λ d : string * doc, d.2 !! "file_name" = Some (VStr f))
         (in_id_order docs) = [].
Proof.
  intros Hno. apply elem_of_nil_inv. intros [id d].
  rewrite list_elem_of_filter, in_id_order_Permutation, elem_of_map_to_list.
  intros [Hlabel Hin]. by apply (Hno id d).
Qed.

Lemma where_single_match (f id : string) (d : doc) (docs : collection) :
  no_mapping_for f docs → docs !! id = None →
  d !! "file_name" = Some (VStr f) →
  filter (λ d : string * doc, d.2 !! "file_name" = Some (VStr f))
         (in_id_order (<[id := d]> docs)) = [(id, d)].
Proof.
  intros Hno Hfresh Hlabel. apply Permutation_singleton_r.
  rewrite in_id_order_Permutation, map_to_list_insert by done.
  rewrite filter_cons_True by done.
  rewrite <- (in_id_order_Permutation docs), where_no_match; done.
Qed.

(** What [save_column_mappings] does outside demo mode. *)
Lemma save_column_mappings_remote e u f m w :
  demo_mode u = false →
  let docs := get_collection Mappings (uid u) (firestore w) in
  save_column_mappings e u f m w
  = if firebase_app e then
      match raises e Client with
      | Some msg => (Raise msg, log GetDb w)
      | None =>
          match raises e (Add Mappings) with
          | Some msg =>
              (Ret false,
               log (StError ("Error saving mappings: " +:+ msg))
                 (log (Rpc (Add Mappings) true) (log GetDb w)))
          | None =>
              match docs !! auto_id e with
              | Some _ =>
                  (Ret false,
                   log (StError ("Error saving mappings: "
                                 +:+ "409 Document already exists"))
                     (log (Rpc (Add Mappings) true) (log GetDb w)))
              | None =>
                  (Ret true,
                   set_firestore
                     (put_collection Mappings (uid u)
                        (<[auto_id e := mapping_doc e f m]> docs))
                     (log (Rpc (Add Mappings) false) (log GetDb w)))
              end
          end
      end
    else (Ret false, log GetDb w).
Proof.
  intros Hd. run. rewrite Hd. simpl. cases; done.
Qed.

(** What [update_column_mappings] does outside demo mode when the lookup
    goes through and finds no document with the file label. *)
Lemma update_column_mappings_remote_new e u f m w :
  demo_mode u = false →
  let docs := get_collection Mappings (uid u) (firestore w) in
  no_mapping_for f docs →
  raises e (Query Mappings) = None →
  update_column_mappings e u f m w
  = if firebase_app e then
      match raises e Client with
      | Some msg => (Raise msg, log GetDb w)
      | None =>
          match raises e (Add Mappings) with
          | Some msg =>
              (Ret false,
               log (StError ("Error updating mappings: " +:+ msg))
                 (log (Rpc (Add Mappings) true)
                    (log (Rpc (Query Mappings) false) (log GetDb w))))
          | None =>
              match docs !! auto_id e with
              | Some _ =>
                  (Ret false,
                   log (StError ("Error updating mappings: "
                                 +:+ "409 Document already exists"))
                     (log (Rpc (Add Mappings) true)
                        (log (Rpc (Query Mappings) false) (log GetDb w))))
              | None =>
                  (Ret true,
                   set_firestore
                     (put_collection Mappings (uid u)
                        (<[auto_id e := updated_doc e f m]> docs))
                     (log (Rpc (Add Mappings) false)
                        (log (Rpc (Query Mappings) false) (log GetDb w))))
              end
          end
      end
    else (Ret false, log GetDb w).
Proof.
  intros Hd docs Hno Hq. run. rewrite Hd. simpl.
  destruct (firebase_app e); simpl; [|done].
  destruct (raises e Client); simpl; [done|]. rewrite Hq. simpl.
  fold docs. rewrite (where_no_match f docs Hno). simpl.
  destruct (raises e (Add Mappings)); simpl; [done|].
  fold docs. by destruct (docs !! auto_id e).
Qed.

Lemma updated_doc_mapping_doc e f m :
  updated_doc e f m
  = <["updated_at" := VStr (isoformat (now e 0))]>
      (delete "created_at" (mapping_doc e f m)).
Proof.
  unfold updated_doc, mapping_doc. apply map_eq. intros k.
  destruct (decide (k = "file_name")) as [->|]; [by simplify_map_eq|].
  destruct (decide (k = "mappings")) as [->|]; [by simplify_map_eq|].
  destruct (decide (k = "updated_at")) as [->|]; [by simplify_map_eq|].
  destruct (decide (k = "created_at")) as [->|]; [by simplify_map_eq|].
  destruct (decide (k = "last_used")) as [->|]; by simplify_map_eq.
Qed.

(** C3 (as amended).  In demo mode [update_column_mappings] is
    [save_column_mappings]: same answer, same world.  Outside demo mode, when
    the user has no document with the file label and the lookup goes through,
    both give the same answer (or raise what [firestore.client()] raised in
    [get_db]) and leave the session state alone; either both leave Firestore
    as it was, or both add one document under the drawn id, and then the
    document of [update_column_mappings] is the one of [save_column_mappings]
    with [updated_at] in place of [created_at]. *)
Theorem C3_update_without_prior e u f m w :
  (demo_mode u = true →
     update_column_mappings e u f m w = save_column_mappings e u f m w) ∧
  (demo_mode u = false →
   no_mapping_for f (get_collection Mappings (uid u) (firestore w)) →
   raises e (Query Mappings) = None →
   result (update_column_mappings e u f m w)
   = result (save_column_mappings e u f m w) ∧
   session (after (update_column_mappings e u f m w))
   = session (after (save_column_mappings e u f m w)) ∧
   (firestore (after (update_column_mappings e u f m w)) = firestore w ∧
    firestore (after (save_column_mappings e u f m w)) = firestore w ∧
    (result (save_column_mappings e u f m w) = Ret false ∨
     ∃ msg, raises e Client = Some msg ∧
            result (save_column_mappings e u f m w) = Raise msg)
    ∨
    result (save_column_mappings e u f m w) = Ret true ∧
    firestore (after (save_column_mappings e u f m w))
    = put_collection Mappings (uid u)
        (<[auto_id e := mapping_doc e f m]>
           (get_collection Mappings (uid u) (firestore w))) (firestore w) ∧
    firestore (after (update_column_mappings e u f m w))
    = put_collection Mappings (uid u)
        (<[auto_id e := <["updated_at" := VStr (isoformat (now e 0))]>
                          (delete "created_at" (mapping_doc e f m))]>
           (get_collection Mappings (uid u) (firestore w))) (firestore w))).
Proof.
  split.
  - intros Hd.
    by rewrite update_column_mappings_demo, save_column_mappings_demo.
  - intros Hd Hno Hq.
    rewrite (update_column_mappings_remote_new e u f m w Hd Hno Hq).
    rewrite (save_column_mappings_remote e u f m w Hd).
    rewrite <- updated_doc_mapping_doc. unfold result, after.
    destruct (firebase_app e);
      [|split; [done|]; split; [done|]; left; split; [done|]; split; [done|];
        by left].
    destruct (raises e Client) as [msg|] eqn:Hclient;
      [split; [done|]; split; [done|]; left; split; [done|]; split; [done|];
       right; by exists msg|].
    destruct (raises e (Add Mappings));
      [split; [done|]; split; [done|]; left; split; [done|]; split; [done|];
       by left|].
    destruct (_ !! auto_id e);
      [split; [done|]; split; [done|]; left; split; [done|]; split; [done|];
       by left|].
    split; [done|]. split; [done|]. by right.
Qed.

Lemma C3_update_without_prior_witness :
  result (update_column_mappings (calm "A") (Some "u1") "bank.csv"
            {[ "Date" := "date" ]} empty_world)
  = result (save_column_mappings (calm "A") (Some "u1") "bank.csv"
              {[ "Date" := "date" ]} empty_world).
Proof.
  destruct (C3_update_without_prior (calm "A") (Some "u1") "bank.csv"
              {[ "Date" := "date" ]} empty_world) as [_ Hremote].
  apply Hremote; [reflexivity | | reflexivity].
  intros id d Hd. vm_compute in Hd. discriminate.
Defined.

(** C3 (as stated) fails on the stored state: for a signed-in user without
    a mapping the two calls answer alike, but the document created by
    [update_column_mappings] has [updated_at] and no [created_at], the one
    created by [save_column_mappings] the reverse. *)
Lemma C3_update_creates_other_document :
  get_collection Mappings "u1"
    (firestore (after (update_column_mappings (calm "A") (Some "u1") "bank.csv"
                         {[ "Date" := "date" ]} empty_world)))
    = {[ "A" := updated_doc (calm "A") "bank.csv" {[ "Date" := "date" ]} ]} ∧
  get_collection Mappings "u1"
    (firestore (after (save_column_mappings (calm "A") (Some "u1") "bank.csv"
                         {[ "Date" := "date" ]} empty_world)))
    = {[ "A" := mapping_doc (calm "A") "bank.csv" {[ "Date" := "date" ]} ]} ∧
  updated_doc (calm "A") "bank.csv" {[ "Date" := "date" ]} !! "created_at"
    = None ∧
  mapping_doc (calm "A") "bank.csv" {[ "Date" := "date" ]} !! "created_at"
    = Some (VStr "2024-01-02T12:00:00").
Proof. repeat split; vm_compute; reflexivity. Qed.

Lemma store_mapping_twice f r1 r2 s :
  store_mapping f r2 (store_mapping f r1 s) = store_mapping f r2 s.
Proof. unfold store_mapping. simpl. by rewrite insert_insert_eq. Qed.

(** C2 (as amended).  Outside demo mode a save that answers [True] has
    added one document under an id that held nothing, and the user's mapping
    documents are the former ones, untouched, plus that one: nothing is
    looked up by file label and nothing is updated in place.  In demo mode a
    save answers [True] and puts its entry under the file label in place of
    whatever was there, so that a later save under the same label leaves the
    session state it would leave on its own. *)
Theorem C2_save_adds_or_overwrites e u f m w :
  (demo_mode u = false →
   result (save_column_mappings e u f m w) = Ret true →
   get_collection Mappings (uid u) (firestore w) !! auto_id e = None ∧
   get_collection Mappings (uid u)
     (firestore (after (save_column_mappings e u f m w)))
   = <[auto_id e := mapping_doc e f m]>
       (get_collection Mappings (uid u) (firestore w))) ∧
  (demo_mode u = true →
   result (save_column_mappings e u f m w) = Ret true ∧
   saved_mappings (session (after (save_column_mappings e u f m w)))
   = Some (<[f := session_entry e m]>
             (default ∅ (saved_mappings (session w)))) ∧
   ∀ e' m',
     session (after (save_column_mappings e' u f m'
                       (after (save_column_mappings e u f m w))))
     = session (after (save_column_mappings e' u f m' w))).
Proof.
  split.
  - intros Hd. rewrite (save_column_mappings_remote e u f m w Hd).
    unfold result, after.
    destruct (firebase_app e); [|discriminate].
    destruct (raises e Client); [discriminate|].
    destruct (raises e (Add Mappings)); [discriminate|].
    destruct (_ !! auto_id e) eqn:Hfresh; [discriminate|].
    intros _. split; [done|]. simpl. by rewrite get_put_collection_eq.
  - intros Hd. rewrite !save_column_mappings_demo by done.
    split; [done|]. split; [done|]. intros e' m'.
    rewrite !save_column_mappings_demo by done.
    unfold after, set_session. cbn [snd session].
    by rewrite store_mapping_twice.
Qed.

Lemma C2_save_adds_or_overwrites_witness :
  get_collection Mappings "u1" (firestore empty_world) !! "A" = None ∧
  get_collection Mappings "u1"
    (firestore (after (save_column_mappings (calm "A") (Some "u1") "bank.csv"
                         {[ "Date" := "date" ]} empty_world)))
  = <["A" := mapping_doc (calm "A") "bank.csv" {[ "Date" := "date" ]}]>
      (get_collection Mappings "u1" (firestore empty_world)).
Proof.
  destruct (C2_save_adds_or_overwrites (calm "A") (Some "u1") "bank.csv"
              {[ "Date" := "date" ]} empty_world) as [Hremote _].
  apply Hremote; [reflexivity | vm_compute; reflexivity].
Defined.

(** C2 (as stated) fails outside demo mode: the second save for the same
    file label answers [True] and leaves two documents with that label, the
    first one unchanged. *)
Lemma C2_second_save_duplicates :
  result (save_column_mappings (calm "B") (Some "u1") "bank.csv"
            {[ "Date" := "date"; "Amt" := "amount" ]}
            (after (save_column_mappings (calm "A") (Some "u1") "bank.csv"
                      {[ "Date" := "posted" ]} empty_world)))
    = Ret true ∧
  get_collection Mappings "u1" (firestore after_two_saves)
    = {[ "A" := mapping_doc (calm "A") "bank.csv" {[ "Date" := "posted" ]};
         "B" := mapping_doc (calm "B") "bank.csv"
                  {[ "Date" := "date"; "Amt" := "amount" ]} ]} ∧
  size (get_collection Mappings "u1" (firestore after_two_saves)) = 2.
Proof. repeat split; vm_compute; reflexivity. Qed.

(** C1, at a failing input.  The user [u1] has a mapping for [bank.csv]
    and saves a new one; the save answers [True].  The read that follows
    runs [where file_name == "bank.csv"] with [limit(1)] and no ordering, gets
    the document with the smaller id, which is the older one, and returns its
    mapping, not the one just saved. *)
Theorem C1_read_after_save_is_stale :
  result (save_column_mappings (calm "B") (Some "u1") "bank.csv"
            {[ "Date" := "date"; "Amt" := "amount" ]}
            (after (save_column_mappings (calm "A") (Some "u1") "bank.csv"
                      {[ "Date" := "posted" ]} empty_world)))
    = Ret true ∧
  result (get_existing_mappings (calm "C") (Some "u1") "bank.csv"
            after_two_saves)
    = Ret (Some (VMapping {[ "Date" := "posted" ]})) ∧
  VMapping {[ "Date" := "posted" ]}
    ≠ VMapping {[ "Date" := "date"; "Amt" := "amount" ]}.
Proof.
  split; [vm_compute; reflexivity|]. split; [vm_compute; reflexivity|].
  intros H.
  apply (f_equal (λ v, match v with VMapping m => m !! "Amt" | _ => None end))
    in H.
  vm_compute in H. discriminate.
Qed.

(** X5.  Where the round trip does hold: in demo mode, always.  For a user
    id that begins with [demo_user_], [get_existing_mappings] after
    [save_column_mappings] under the same file label returns the mapping just
    saved, whatever the session held before. *)
Lemma roundtrip_demo e e' u f m w :
  startswith u demo_prefix = true →
  result (get_existing_mappings e' (Some u) f
            (after (save_column_mappings e (Some u) f m w)))
  = Ret (Some (VMapping m)).
Proof.
  intros Hp. rewrite save_column_mappings_demo by by apply demo_mode_prefix.
  pose proof (prefix_truthy (Some u) Hp) as Ht. simpl uid in *.
  run. rewrite Ht. simpl. rewrite Hp. simpl.
  rewrite lookup_insert_eq. by rewrite session_entry_mappings.
Qed.

(** X6.  And outside demo mode for the first mapping saved under a file
    label, when the backend answers the read (Firebase initialised, the
    client obtained, the query and the update not raising): for a signed-in
    user with no mapping document for the label, after a
    [save_column_mappings] that returned [True], [get_existing_mappings]
    returns the mapping just saved. *)
Lemma roundtrip_remote_first e e' u f m w :
  demo_mode u = false →
  no_mapping_for f (get_collection Mappings (uid u) (firestore w)) →
  result (save_column_mappings e u f m w) = Ret true →
  firebase_app e' = true → raises e' Client = None →
  raises e' (Query Mappings) = None →
  raises e' (Update Mappings) = None →
  result (get_existing_mappings e' u f (after (save_column_mappings e u f m w)))
  = Ret (Some (VMapping m)).
Proof.
  intros Hd Hno. destruct (demo_mode_false _ Hd) as [Ht Hp].
  rewrite (save_column_mappings_remote e u f m w Hd). unfold result, after.
  destruct (firebase_app e); [|discriminate].
  destruct (raises e Client); [discriminate|].
  destruct (raises e (Add Mappings)); [discriminate|].
  destruct (_ !! auto_id e) eqn:Hfresh; [discriminate|].
  intros _ Happ Hclient Hq Hupd. cbn [fst snd].
  run. rewrite Ht, Hp, Happ, Hclient. simpl. rewrite Hq. simpl.
  rewrite get_put_collection_eq.
  rewrite (where_single_match f) by (done || by unfold mapping_doc; simplify_map_eq).
  simpl. rewrite Hupd. simpl. rewrite get_put_collection_eq.
  rewrite lookup_insert_eq. simpl.
  unfold mapping_doc. by simplify_map_eq.
Qed.

(** ** More on column mappings *)

Lemma first_match_Some f docs id d :
  first_match f docs = Some (id, d) →
  docs !! id = Some d ∧ d !! "file_name" = Some (VStr f).
Proof.
  unfold first_match. intros Hhead. apply head_Some_elem_of in Hhead.
  apply list_elem_of_filter in Hhead as [Hlabel Hin].
  rewrite in_id_order_Permutation in Hin.
  by apply elem_of_map_to_list in Hin.
Qed.

Lemma first_match_None f docs :
  first_match f docs = None ↔ no_mapping_for f docs.
Proof.
  unfold first_match. rewrite head_None. split.
  - intros Hnil id d Hd Hlabel.
    apply (filter_nil_not_elem_of _ _ (id, d) Hnil); [done|].
    rewrite in_id_order_Permutation. by apply elem_of_map_to_list.
  - apply where_no_match.
Qed.

Lemma take_one_head {A} (l : list A) :
  take 1 l = match head l with Some x => [x] | None => [] end.
Proof. by destruct l. Qed.

(** [get_existing_mappings] outside demo mode, when the backend is up, the
    client is there and neither the query nor the update raises. *)
Lemma get_existing_mappings_remote e u f w :
  demo_mode u = false → firebase_app e = true → raises e Client = None →
  raises e (Query Mappings) = None → raises e (Update Mappings) = None →
  let docs := get_collection Mappings (uid u) (firestore w) in
  match first_match f docs with
  | None =>
      result (get_existing_mappings e u f w) = Ret None ∧
      firestore (after (get_existing_mappings e u f w)) = firestore w
  | Some (id, d) =>
      result (get_existing_mappings e u f w) = Ret (d !! "mappings") ∧
      firestore (after (get_existing_mappings e u f w))
      = put_collection Mappings (uid u)
          (<[id := {[ "last_used" := VStr (isoformat (now e 0)) ]} ∪ d]> docs)
          (firestore w)
  end.
Proof.
  intros Hd Happ Hclient Hq Hupd docs.
  destruct (demo_mode_false _ Hd) as [Ht Hp].
  destruct (first_match f docs) as [[id d]|] eqn:Hfirst.
  - destruct (first_match_Some _ _ _ _ Hfirst) as [Hin _].
    unfold first_match in Hfirst. fold docs in Hin.
    run. rewrite Ht, Hp, Happ, Hclient. simpl. rewrite Hq. simpl. fold docs.
    rewrite take_one_head, Hfirst. simpl. rewrite Hupd. simpl. fold docs.
    rewrite Hin. simpl. by destruct (d !! "mappings").
  - unfold first_match in Hfirst.
    run. rewrite Ht, Hp, Happ, Hclient. simpl. rewrite Hq. simpl. fold docs.
    by rewrite take_one_head, Hfirst.
Qed.

(** X1.  Reading a mapping writes: for a signed-in user, with the backend
    up, the client obtained and no call raising, [get_existing_mappings]
    returns the [mappings] field of the first document that carries the file
    label and sets that document's [last_used] to the time of the read; every
    other field of it and every other document stay as they were. *)
Theorem get_existing_mappings_refreshes_last_used e u f w id d :
  demo_mode u = false → firebase_app e = true → raises e Client = None →
  raises e (Query Mappings) = None → raises e (Update Mappings) = None →
  first_match f (get_collection Mappings (uid u) (firestore w)) = Some (id, d) →
  result (get_existing_mappings e u f w) = Ret (d !! "mappings") ∧
  (∃ d', get_collection Mappings (uid u)
           (firestore (after (get_existing_mappings e u f w))) !! id = Some d' ∧
         d' !! "last_used" = Some (VStr (isoformat (now e 0))) ∧
         ∀ field, field ≠ "last_used" → d' !! field = d !! field) ∧
  (∀ id', id' ≠ id →
     get_collection Mappings (uid u)
       (firestore (after (get_existing_mappings e u f w))) !! id'
     = get_collection Mappings (uid u) (firestore w) !! id').
Proof.
  intros Hd Happ Hclient Hq Hupd Hfirst.
  pose proof (get_existing_mappings_remote e u f w Hd Happ Hclient Hq Hupd)
    as H.
  simpl in H. rewrite Hfirst in H. destruct H as [Hres Hfs].
  split; [done|]. rewrite Hfs, get_put_collection_eq. split.
  - eexists. split; [apply lookup_insert_eq|].
    rewrite <- insert_union_singleton_l. split; [apply lookup_insert_eq|].
    intros field Hfield. by rewrite lookup_insert_ne.
  - intros id' Hne. by rewrite lookup_insert_ne.
Qed.

(** The user [u1] with one mapping for [bank.csv], saved under id [A]. *)
Lemma get_existing_mappings_refreshes_last_used_witness :
  result (get_existing_mappings (calm_later "B") (Some "u1") "bank.csv"
            (after (save_column_mappings (calm "A") (Some "u1") "bank.csv"
                      {[ "Date" := "date" ]} empty_world)))
  = Ret (mapping_doc (calm "A") "bank.csv" {[ "Date" := "date" ]} !! "mappings").
Proof.
  apply (get_existing_mappings_refreshes_last_used (calm_later "B") (Some "u1")
           "bank.csv" _ "A"
           (mapping_doc (calm "A") "bank.csv" {[ "Date" := "date" ]}));
    vm_compute; reflexivity.
Defined.

(** X2.  A file label nobody saved reads as [None] and the read changes
    nothing that is stored: outside demo mode when none of the user's
    documents carries the label and [firestore.client()] does not raise in
    [get_db], be Firebase initialised or not and the query raising or not; in
    demo mode when the session dict has no entry under it. *)
Theorem get_existing_mappings_unknown_label e u f w :
  (demo_mode u = false →
   no_mapping_for f (get_collection Mappings (uid u) (firestore w))) →
  (demo_mode u = true → default ∅ (saved_mappings (session w)) !! f = None) →
  (demo_mode u = false → firebase_app e = true → raises e Client = None) →
  result (get_existing_mappings e u f w) = Ret None ∧
  session (after (get_existing_mappings e u f w)) = session w ∧
  firestore (after (get_existing_mappings e u f w)) = firestore w.
Proof.
  intros Hremote Hdemo Hclient. destruct (demo_mode u) eqn:Hd.
  - specialize (Hdemo eq_refl).
    destruct (demo_mode_true _ Hd) as [Ht | Hp];
      [| pose proof (prefix_truthy _ Hp) as Ht];
      run; rewrite ?Ht, ?Hp; simpl; [done|].
    destruct (saved_mappings (session w)) as [saved|]; simpl in *; [|done].
    by rewrite Hdemo.
  - specialize (Hremote eq_refl). specialize (Hclient eq_refl).
    destruct (demo_mode_false _ Hd) as [Ht Hp].
    run. rewrite Ht, Hp. simpl.
    destruct (firebase_app e); simpl; [|done].
    rewrite Hclient by done. simpl.
    destruct (raises e (Query Mappings)); simpl; [done|].
    by rewrite (where_no_match f _ Hremote).
Qed.

Lemma get_existing_mappings_unknown_label_witness :
  result (get_existing_mappings (calm "B") (Some "u1") "unknown.csv"
            after_two_saves) = Ret None ∧
  session (after (get_existing_mappings (calm "B") (Some "u1") "unknown.csv"
                    after_two_saves)) = session after_two_saves ∧
  firestore (after (get_existing_mappings (calm "B") (Some "u1") "unknown.csv"
                      after_two_saves)) = firestore after_two_saves.
Proof.
  apply (get_existing_mappings_unknown_label (calm "B") (Some "u1")
           "unknown.csv" after_two_saves).
  - intros _. apply first_match_None. vm_compute. reflexivity.
  - discriminate.
  - reflexivity.
Defined.

(** [update_column_mappings] outside demo mode when the backend is up, the
    client is there and the lookup goes through and finds a document. *)
Lemma update_column_mappings_remote_found e u f m w id old :
  demo_mode u = false → firebase_app e = true → raises e Client = None →
  raises e (Query Mappings) = None →
  let docs := get_collection Mappings (uid u) (firestore w) in
  first_match f docs = Some (id, old) →
  update_column_mappings e u f m w
  = match raises e (Update Mappings) with
    | Some msg =>
        (Ret false,
         log (StError ("Error updating mappings: " +:+ msg))
           (log (Rpc (Update Mappings) true)
              (log (Rpc (Query Mappings) false) (log GetDb w))))
    | None =>
        (Ret true,
         set_firestore
           (put_collection Mappings (uid u)
              (<[id := updated_doc e f m ∪ old]> docs))
           (log (Rpc (Update Mappings) false)
              (log (Rpc (Query Mappings) false) (log GetDb w))))
    end.
Proof.
  intros Hd Happ Hclient Hq docs Hfirst.
  destruct (demo_mode_false _ Hd) as [Ht Hp].
  destruct (first_match_Some _ _ _ _ Hfirst) as [Hin _].
  unfold first_match in Hfirst. fold docs in Hin.
  run. rewrite Hd, Happ, Hclient. simpl. rewrite Hq. simpl. fold docs.
  rewrite take_one_head, Hfirst. simpl.
  destruct (raises e (Update Mappings)); simpl; [done|].
  fold docs. by rewrite Hin.
Qed.

Lemma updated_doc_union_lookup e f m old field :
  (updated_doc e f m ∪ old) !! field
  = if decide (field ∈ ["file_name"; "mappings"; "updated_at"; "last_used"])
    then updated_doc e f m !! field else old !! field.
Proof.
  case_decide as Hin.
  - apply lookup_union_l'.
    repeat (apply elem_of_cons in Hin as [-> | Hin];
            [unfold updated_doc; by simplify_map_eq|]).
    by apply not_elem_of_nil in Hin.
  - apply lookup_union_r. unfold updated_doc.
    repeat (rewrite lookup_insert_ne
              by (intros <-; apply Hin; repeat constructor)).
    apply lookup_singleton_ne. intros <-. apply Hin. repeat constructor.
Qed.

(** X3.  For a signed-in user who has a document with the file label, an
    [update_column_mappings] that answers [True] has changed the first such
    document in place: it carries the new mapping, the label, [updated_at] and
    [last_used]; the fields the call does not name, [created_at] among them,
    are the old ones; no document is added and no other one is touched. *)
Theorem update_column_mappings_in_place e u f m w id old :
  demo_mode u = false →
  first_match f (get_collection Mappings (uid u) (firestore w)) = Some (id, old) →
  result (update_column_mappings e u f m w) = Ret true →
  ∃ d',
    get_collection Mappings (uid u)
      (firestore (after (update_column_mappings e u f m w)))
    = <[id := d']> (get_collection Mappings (uid u) (firestore w)) ∧
    size (get_collection Mappings (uid u)
            (firestore (after (update_column_mappings e u f m w))))
    = size (get_collection Mappings (uid u) (firestore w)) ∧
    d' !! "mappings" = Some (VMapping m) ∧
    d' !! "file_name" = Some (VStr f) ∧
    d' !! "updated_at" = Some (VStr (isoformat (now e 0))) ∧
    d' !! "last_used" = Some (VStr (isoformat (now e 1))) ∧
    ∀ field,
      field ∉ ["file_name"; "mappings"; "updated_at"; "last_used"] →
      d' !! field = old !! field.
Proof.
  intros Hd Hfirst Hres. destruct (demo_mode_false _ Hd) as [Ht Hp].
  destruct (first_match_Some _ _ _ _ Hfirst) as [Hin _].
  assert (firebase_app e = true ∧ raises e Client = None ∧
          raises e (Query Mappings) = None) as (Happ & Hclient & Hq).
  { revert Hres. run. rewrite Hd. simpl.
    destruct (firebase_app e); simpl; [|discriminate].
    destruct (raises e Client); simpl; [discriminate|].
    by destruct (raises e (Query Mappings)). }
  revert Hres.
  rewrite (update_column_mappings_remote_found e u f m w id old
             Hd Happ Hclient Hq Hfirst).
  destruct (raises e (Update Mappings)); [discriminate|]. intros _.
  unfold after. simpl. rewrite get_put_collection_eq.
  exists (updated_doc e f m ∪ old). split; [done|]. split.
  { apply map_size_insert_Some. by rewrite Hin. }
  rewrite !updated_doc_union_lookup.
  repeat (split; [by (unfold updated_doc; simplify_map_eq)|]).
  intros field Hfield. rewrite updated_doc_union_lookup. by case_decide.
Qed.

Lemma update_column_mappings_in_place_witness :
  ∃ d',
    get_collection Mappings "u1"
      (firestore (after (update_column_mappings (calm_later "B") (Some "u1")
                           "bank.csv" {[ "Date" := "date" ]} after_one_save)))
    = <["A" := d']> (get_collection Mappings "u1" (firestore after_one_save)) ∧
    size (get_collection Mappings "u1"
            (firestore (after (update_column_mappings (calm_later "B")
                                 (Some "u1") "bank.csv" {[ "Date" := "date" ]}
                                 after_one_save))))
    = size (get_collection Mappings "u1" (firestore after_one_save)) ∧
    d' !! "mappings" = Some (VMapping {[ "Date" := "date" ]}) ∧
    d' !! "file_name" = Some (VStr "bank.csv") ∧
    d' !! "updated_at" = Some (VStr (isoformat (now (calm_later "B") 0))) ∧
    d' !! "last_used" = Some (VStr (isoformat (now (calm_later "B") 1))) ∧
    ∀ field,
      field ∉ ["file_name"; "mappings"; "updated_at"; "last_used"] →
      d' !! field
      = mapping_doc (calm "A") "bank.csv" {[ "Date" := "posted" ]} !! field.
Proof.
  apply (update_column_mappings_in_place (calm_later "B") (Some "u1")
           "bank.csv" {[ "Date" := "date" ]} after_one_save "A"
           (mapping_doc (calm "A") "bank.csv" {[ "Date" := "posted" ]}));
    vm_compute; reflexivity.
Defined.

Lemma first_match_single f id d docs :
  no_mapping_for f (delete id docs) →
  d !! "file_name" = Some (VStr f) →
  first_match f (<[id := d]> docs) = Some (id, d).
Proof.
  intros Hno Hlabel. unfold first_match.
  rewrite <- insert_delete_eq.
  by rewrite (where_single_match f id d) by (done || apply lookup_delete_eq).
Qed.

Lemma first_match_at_most_one f id d docs :
  at_most_one_mapping_for f docs →
  docs !! id = Some d → d !! "file_name" = Some (VStr f) →
  no_mapping_for f (delete id docs).
Proof.
  intros [id0 Hno] Hin Hlabel. destruct (decide (id0 = id)) as [->|Hne]; [done|].
  destruct (Hno id d); [|done]. by rewrite lookup_delete_ne.
Qed.

(** X4.  Update, then read: for a signed-in user with at most one document
    for the file label, an [update_column_mappings] that answers [True],
    whether it changed that document or created the first one, is followed by
    a [get_existing_mappings] that returns the mapping just written, provided
    the backend answers the read (Firebase initialised, the client obtained,
    the query and the update not raising). *)
Theorem update_then_read e e' u f m w :
  demo_mode u = false →
  at_most_one_mapping_for f (get_collection Mappings (uid u) (firestore w)) →
  result (update_column_mappings e u f m w) = Ret true →
  firebase_app e' = true → raises e' Client = None →
  raises e' (Query Mappings) = None → raises e' (Update Mappings) = None →
  result (get_existing_mappings e' u f (after (update_column_mappings e u f m w)))
  = Ret (Some (VMapping m)).
Proof.
  intros Hd Hone Hres Happ' Hclient' Hq' Hupd'.
  destruct (demo_mode_false _ Hd) as [Ht Hp].
  assert (firebase_app e = true ∧ raises e Client = None ∧
          raises e (Query Mappings) = None) as (Happ & Hclient & Hq).
  { revert Hres. run. rewrite Hd. simpl.
    destruct (firebase_app e); simpl; [|discriminate].
    destruct (raises e Client); simpl; [discriminate|].
    by destruct (raises e (Query Mappings)). }
  pose proof (get_existing_mappings_remote e' u f
                (after (update_column_mappings e u f m w))
                Hd Happ' Hclient' Hq' Hupd')
    as Hget. simpl in Hget.
  assert (first_match f
            (get_collection Mappings (uid u)
               (firestore (after (update_column_mappings e u f m w))))
          = Some (auto_id e, updated_doc e f m)
          ∨ ∃ id old,
              first_match f
                (get_collection Mappings (uid u)
                   (firestore (after (update_column_mappings e u f m w))))
              = Some (id, updated_doc e f m ∪ old)) as Hfirst.
  { destruct (first_match f (get_collection Mappings (uid u) (firestore w)))
      as [[id old]|] eqn:Hold.
    - right. exists id, old. revert Hres.
      rewrite (update_column_mappings_remote_found e u f m w id old
                 Hd Happ Hclient Hq Hold).
      destruct (raises e (Update Mappings)); [discriminate|]. intros _.
      unfold after. simpl. rewrite get_put_collection_eq.
      destruct (first_match_Some _ _ _ _ Hold) as [Hin Hlabel].
      apply first_match_single.
      + by eapply first_match_at_most_one.
      + rewrite updated_doc_union_lookup.
        unfold updated_doc. by simplify_map_eq.
    - left. apply first_match_None in Hold. revert Hres.
      rewrite (update_column_mappings_remote_new e u f m w Hd Hold Hq), Happ,
        Hclient.
      destruct (raises e (Add Mappings)); [discriminate|].
      destruct (_ !! auto_id e) eqn:Hfresh; [discriminate|]. intros _.
      unfold after. simpl. rewrite get_put_collection_eq.
      apply first_match_single.
      + by rewrite delete_id.
      + unfold updated_doc. by simplify_map_eq. }
  destruct Hfirst as [Hfirst | (id & old & Hfirst)];
    rewrite Hfirst in Hget; destruct Hget as [-> _]; f_equal;
    rewrite ?updated_doc_union_lookup; unfold updated_doc; by simplify_map_eq.
Qed.

Lemma update_then_read_witness :
  result (get_existing_mappings (calm "C") (Some "u1") "bank.csv"
            (after (update_column_mappings (calm_later "B") (Some "u1")
                      "bank.csv" {[ "Date" := "date" ]} after_one_save)))
  = Ret (Some (VMapping {[ "Date" := "date" ]})).
Proof.
  apply (update_then_read (calm_later "B") (calm "C") (Some "u1") "bank.csv"
           {[ "Date" := "date" ]} after_one_save); try (vm_compute; reflexivity).
  exists "A". apply first_match_None. vm_compute. reflexivity.
Defined.

(** ** More on failures *)

Lemma roundtrip_demo_witness :
  result (get_existing_mappings (calm "B") (Some "demo_user_a_b_com") "bank.csv"
            (after (save_column_mappings (calm "A") (Some "demo_user_a_b_com")
                      "bank.csv" {[ "Date" := "date" ]} empty_world)))
  = Ret (Some (VMapping {[ "Date" := "date" ]})).
Proof.
  apply (roundtrip_demo (calm "A") (calm "B") "demo_user_a_b_com" "bank.csv"
           {[ "Date" := "date" ]} empty_world).
  reflexivity.
Defined.

Lemma roundtrip_remote_first_witness :
  result (get_existing_mappings (calm "B") (Some "u1") "bank.csv"
            (after (save_column_mappings (calm "A") (Some "u1") "bank.csv"
                      {[ "Date" := "date" ]} empty_world)))
  = Ret (Some (VMapping {[ "Date" := "date" ]})).
Proof.
  apply (roundtrip_remote_first (calm "A") (calm "B") (Some "u1") "bank.csv"
           {[ "Date" := "date" ]} empty_world); try (vm_compute; reflexivity).
  intros id d Hd. vm_compute in Hd. discriminate.
Defined.



(** X8.  When a call on the Firestore client raises during an operation,
    the operation answers its failure result and the last thing it logs is
    its own message with the text of that exception: through [st.error] for
    the three writing operations, through [st.warning] for the two reading
    ones. *)
Theorem client_fault_is_reported e u op w evs r :
  trace (after (exec e u op w)) = trace w ++ evs →
  Rpc r true ∈ evs →
  last evs = Some (failure_message op (exception_text e r)) ∧
  result (exec e u op w) = Ret (failure_shape op).
Proof.
  intros Hevs Hin. destruct (demo_mode u) eqn:Hd.
  - destruct (demo_mode_local e u op w Hd) as [Ht _]. rewrite Ht in Hevs.
    rewrite <- (app_nil_r (trace w)) in Hevs at 1.
    apply app_inv_head in Hevs. subst evs. by apply not_elem_of_nil in Hin.
  - destruct (demo_mode_false _ Hd) as [Ht Hp]. revert Hevs.
    destruct op; run; rewrite ?Hd, ?Ht, ?Hp; simpl; cases;
      rewrite <- ?app_assoc; simpl;
      intros Hevs; apply app_inv_head in Hevs; subst evs;
      repeat (apply elem_of_cons in Hin as [Hin | Hin];
              [first [discriminate Hin | injection Hin as ->]|]);
      try (by apply not_elem_of_nil in Hin);
      unfold exception_text;
      repeat match goal with H : raises e _ = _ |- _ => rewrite H end;
      done.
Qed.

(** The backend refuses the [add] of [save_financial_data]. *)
Lemma client_fault_is_reported_witness :
  last [GetDb; Rpc (Add FinancialData) true;
        StError "Error saving financial data: 503 unavailable"]
  = Some (failure_message (SaveFinancialData "budget" two_rows)
            (exception_text add_unavailable (Add FinancialData))) ∧
  result (exec add_unavailable (Some "u1")
            (SaveFinancialData "budget" two_rows) empty_world)
  = Ret (failure_shape (SaveFinancialData "budget" two_rows)).
Proof.
  apply (client_fault_is_reported add_unavailable (Some "u1")
           (SaveFinancialData "budget" two_rows) empty_world).
  - reflexivity.
  - apply elem_of_cons. right. apply elem_of_cons. by left.
Defined.

(** X9.  [get_user_financial_data] only reads: whatever the user id, the
    data type and the backend's mood, session state and Firestore are after
    the call what they were before. *)
Theorem get_user_financial_data_reads_only e u t w :
  session (after (get_user_financial_data e u t w)) = session w ∧
  firestore (after (get_user_financial_data e u t w)) = firestore w.
Proof.
  destruct (demo_mode u) eqn:Hd.
  - destruct (demo_mode_true _ Hd) as [Ht | Hp];
      [| pose proof (prefix_truthy _ Hp) as Ht];
      run; rewrite ?Ht, ?Hp; simpl; cases; done.
  - destruct (demo_mode_false _ Hd) as [Ht Hp].
    run; rewrite ?Ht, ?Hp; simpl; cases; done.
Qed.

Lemma run_calls_session_ok calls w :
  session_ok (session w) → session_ok (session (run_calls calls w)).
Proof.
  revert w. induction calls as [|[[e u] op] calls IH]; intros w Hok; [done|].
  simpl. by apply IH, session_ok_preserved.
Qed.

(** X10.  In a session that starts with an empty session state, whatever
    is in Firestore, after any run of calls of the five operations, with any
    user ids, any arguments and any backend failures, a further call raises
    only what [firestore.client()] raises in [get_db], and that in a call made
    for a signed-in user with Firebase initialised; otherwise it returns a
    value.  The [KeyError] of the demo read never happens: every entry under
    [saved_mappings] was written by this module and has its [mappings]
    field. *)
Theorem fresh_session_raises_only_client_fault fs tr calls e u op :
  (∃ a,
     result (exec e u op (run_calls calls (MkWorld (MkSession None None) fs tr)))
     = Ret a) ∨
  (∃ msg,
     result (exec e u op (run_calls calls (MkWorld (MkSession None None) fs tr)))
     = Raise msg ∧
     demo_mode u = false ∧ firebase_app e = true ∧ raises e Client = Some msg).
Proof.
  assert (session_ok
            (session (run_calls calls (MkWorld (MkSession None None) fs tr))))
    as Hok.
  { apply run_calls_session_ok. intros saved f entry Hs. discriminate. }
  destruct (result (exec e u op _)) as [a | msg] eqn:Hres; [left; by exists a|].
  right. exists msg. split; [done|].
  apply exec_raises_iff in Hres
    as [? | (f & saved & entry & _ & _ & Hsaved & Hentry & Hnone & _)]; [done|].
  destruct (Hok saved f entry Hsaved Hentry) as [m Hm]. congruence.
Qed.

(** ** More on financial records *)

Lemma narrowed_keeps dt t id d (records : collection) :
  dt = None ∨ dt = Some t →
  records !! id = Some d → d !! "type" = Some (VStr t) →
  narrowed dt records !! id = Some d.
Proof.
  intros Hdt Hid Htype. unfold narrowed. destruct (truthy dt) eqn:Ht; [|done].
  apply map_lookup_filter_Some. split; [done|].
  destruct Hdt as [-> | ->]; [discriminate | done].
Qed.

Lemma get_user_financial_data_demo e u dt w :
  startswith u demo_prefix = true →
  result (get_user_financial_data e (Some u) dt w)
  = Ret (narrowed dt (default ∅ (saved_financial_data (session w)))).
Proof.
  intros Hp. pose proof (prefix_truthy (Some u) Hp) as Ht. simpl uid in *.
  unfold narrowed. run. rewrite Ht. simpl. rewrite Hp. simpl.
  destruct (saved_financial_data (session w)) as [saved|]; simpl.
  - destruct dt as [dt|]; simpl; [|done]. by destruct (negb (String.eqb dt "")).
  - destruct (truthy dt); [by rewrite map_filter_empty | done].
Qed.

Lemma get_user_financial_data_remote e u dt w :
  demo_mode u = false → firebase_app e = true → raises e Client = None →
  raises e (Query FinancialData) = None →
  result (get_user_financial_data e u dt w)
  = Ret (narrowed dt (get_collection FinancialData (uid u) (firestore w))).
Proof.
  intros Hd Happ Hclient Hq.
  by rewrite get_user_financial_data_result, Hd, Happ, Hclient, Hq.
Qed.

(** X11.  In demo mode what [save_financial_data] stored is read back: the
    read that follows, without a data type or with the one saved, holds the id
    the save answered, and the record under it has the saved data type and the
    rows of the data frame. *)
Theorem financial_data_roundtrip_demo e e' u t df dt w :
  startswith u demo_prefix = true →
  dt = None ∨ dt = Some t →
  ∃ id records record,
    result (save_financial_data e (Some u) t df w) = Ret (true, Some id) ∧
    result (get_user_financial_data e' (Some u) dt
              (after (save_financial_data e (Some u) t df w))) = Ret records ∧
    records !! id = Some record ∧
    record !! "type" = Some (VStr t) ∧
    record !! "data" = Some (VRecords df).
Proof.
  intros Hp Hdt. rewrite get_user_financial_data_demo by done.
  rewrite save_financial_data_demo by by apply demo_mode_prefix.
  eexists _, _, (financial_record e t df). split; [done|]. split; [done|].
  split; [|split; unfold financial_record, to_dict_records; by simplify_map_eq].
  apply (narrowed_keeps dt t); [done | apply lookup_insert_eq |].
  unfold financial_record. by simplify_map_eq.
Qed.

Lemma financial_data_roundtrip_demo_witness :
  ∃ id records record,
    result (save_financial_data (calm "A") (Some "demo_user_a_b_com") "budget"
              two_rows empty_world) = Ret (true, Some id) ∧
    result (get_user_financial_data (calm "B") (Some "demo_user_a_b_com")
              (Some "budget")
              (after (save_financial_data (calm "A") (Some "demo_user_a_b_com")
                        "budget" two_rows empty_world))) = Ret records ∧
    records !! id = Some record ∧
    record !! "type" = Some (VStr "budget") ∧
    record !! "data" = Some (VRecords two_rows).
Proof.
  apply (financial_data_roundtrip_demo (calm "A") (calm "B") "demo_user_a_b_com"
           "budget" two_rows (Some "budget") empty_world).
  - reflexivity.
  - by right.
Defined.

(** X12.  For a signed-in user [save_financial_data] never answers
    [(True, id)]: a call that returns, returns [(False, None)].  When the
    client is there and [add] goes through, under an id that held nothing, the
    record is written all the same: the call then fails on [doc_ref.id]
    ([add] returned a tuple), shows that error and answers [(False, None)],
    and a read that the backend answers, without a data type or with the one
    saved, holds the record under the drawn id, with the saved data type, the
    rows, and a [row_count] equal to the number of rows. *)
Theorem remote_save_financial_data_reports_failure e e' u t df dt w :
  demo_mode u = false →
  (∀ r, result (save_financial_data e u t df w) = Ret r → r = (false, None)) ∧
  (firebase_app e = true → raises e Client = None →
   raises e (Add FinancialData) = None →
   get_collection FinancialData (uid u) (firestore w) !! auto_id e = None →
   firebase_app e' = true → raises e' Client = None →
   raises e' (Query FinancialData) = None →
   dt = None ∨ dt = Some t →
   result (save_financial_data e u t df w) = Ret (false, None) ∧
   last (trace (after (save_financial_data e u t df w)))
   = Some (StError ("Error saving financial data: "
                    +:+ "'tuple' object has no attribute 'id'")) ∧
   ∃ records record,
     result (get_user_financial_data e' u dt
               (after (save_financial_data e u t df w))) = Ret records ∧
     records !! auto_id e = Some record ∧
     record !! "type" = Some (VStr t) ∧
     record !! "data" = Some (VRecords df) ∧
     record !! "row_count" = Some (VInt (length df))).
Proof.
  intros Hd. split.
  - intros r. rewrite (save_financial_data_remote e u t df w Hd).
    unfold result. destruct (firebase_app e); [|by intros [= <-]].
    destruct (raises e Client); [discriminate|].
    destruct (raises e (Add FinancialData)); [by intros [= <-]|].
    destruct (_ !! auto_id e); by intros [= <-].
  - intros Happ Hclient Hadd Hfresh Happ' Hclient' Hq Hdt.
    rewrite get_user_financial_data_remote by done.
    rewrite (save_financial_data_remote e u t df w Hd).
    rewrite Happ, Hclient, Hadd, Hfresh. unfold result, after.
    cbn [fst snd log set_firestore firestore trace].
    split; [done|]. split; [by rewrite last_snoc|].
    rewrite get_put_collection_eq.
    eexists _, (data_dict e t df). split; [done|].
    split; [|repeat split; unfold data_dict, to_dict_records; by simplify_map_eq].
    apply (narrowed_keeps dt t); [done | apply lookup_insert_eq |].
    unfold data_dict. by simplify_map_eq.
Qed.

(** The user [u1] saves a budget with the backend up. *)
Lemma remote_save_financial_data_reports_failure_witness :
  result (save_financial_data (calm "A") (Some "u1") "budget" two_rows
            empty_world) = Ret (false, None) ∧
  last (trace (after (save_financial_data (calm "A") (Some "u1") "budget"
                        two_rows empty_world)))
  = Some (StError ("Error saving financial data: "
                   +:+ "'tuple' object has no attribute 'id'")) ∧
  ∃ records record,
    result (get_user_financial_data (calm "B") (Some "u1") (Some "budget")
              (after (save_financial_data (calm "A") (Some "u1") "budget"
                        two_rows empty_world))) = Ret records ∧
    records !! auto_id (calm "A") = Some record ∧
    record !! "type" = Some (VStr "budget") ∧
    record !! "data" = Some (VRecords two_rows) ∧
    record !! "row_count" = Some (VInt (length two_rows)).
Proof.
  destruct (remote_save_financial_data_reports_failure (calm "A") (calm "B")
              (Some "u1") "budget" two_rows (Some "budget") empty_world
              eq_refl) as [_ Hstored].
  apply Hstored; try (vm_compute; reflexivity). by right.
Defined.

(** ** Record ids of the session store *)

Lemma string_app_length (s t : string) :
  String.length (s +:+ t) = String.length s + String.length t.
Proof. induction s as [|c s IH]; simpl; [done | by rewrite IH]. Qed.

Lemma string_app_inj_length (s1 s2 t1 t2 : string) :
  String.length s1 = String.length s2 →
  s1 +:+ t1 = s2 +:+ t2 → s1 = s2 ∧ t1 = t2.
Proof.
  revert s2. induction s1 as [|c s1 IH]; intros [|c' s2]; simpl; try done.
  intros [= Hlen] [= -> Happ]. destruct (IH _ Hlen Happ) as [-> ->]. done.
Qed.

Lemma string_app_inj_length_r (s1 s2 t1 t2 : string) :
  String.length t1 = String.length t2 →
  s1 +:+ t1 = s2 +:+ t2 → s1 = s2 ∧ t1 = t2.
Proof.
  intros Hlen Happ. apply string_app_inj_length; [|done].
  apply (f_equal String.length) in Happ. rewrite !string_app_length in Happ. lia.
Qed.

Lemma zero_padded_length w n : String.length (zero_padded w n) = w.
Proof.
  revert n. induction w as [|w IH]; intros n; simpl; [done|].
  rewrite string_app_length, IH. simpl. lia.
Qed.

Lemma digit_inj n m : digit n = digit m → (n mod 10 = m mod 10)%N.
Proof.
  unfold digit. intros H. apply (f_equal N_of_ascii) in H.
  assert (∀ k, (48 + k mod 10 < 256)%N) as Hlt.
  { intros k. pose proof (N.mod_lt k 10). lia. }
  rewrite !N_ascii_embedding in H by apply Hlt. lia.
Qed.

Lemma zero_padded_inj w n m :
  (n < 10 ^ N.of_nat w)%N → (m < 10 ^ N.of_nat w)%N →
  zero_padded w n = zero_padded w m → n = m.
Proof.
  revert n m. induction w as [|w IH]; intros n m Hn Hm Heq.
  - simpl in *. lia.
  - simpl in Heq. rewrite Nat2N.inj_succ, N.pow_succ_r' in Hn, Hm.
    apply string_app_inj_length in Heq as [Hhigh Hlow];
      [|by rewrite !zero_padded_length].
    injection Hlow as Hlow%digit_inj.
    apply IH in Hhigh.
    + rewrite (N.div_mod n 10), (N.div_mod m 10) by done. congruence.
    + apply N.Div0.div_lt_upper_bound. lia.
    + apply N.Div0.div_lt_upper_bound. lia.
Qed.

Lemma strftime_length d : String.length (strftime_YmdHMS d) = 14.
Proof.
  unfold strftime_YmdHMS. by rewrite !string_app_length, !zero_padded_length.
Qed.

Lemma strftime_inj a b :
  valid_datetime a → valid_datetime b →
  strftime_YmdHMS a = strftime_YmdHMS b → same_second a b.
Proof.
  intros (Hy & Hmo & Hd & Hh & Hmi & Hs & _) (Hy' & Hmo' & Hd' & Hh' & Hmi' & Hs' & _).
  unfold strftime_YmdHMS, same_second. intros H.
  repeat (apply string_app_inj_length in H as [?%zero_padded_inj H];
          [|simpl; lia..|by rewrite !zero_padded_length]).
  apply zero_padded_inj in H; [done | simpl; lia..].
Qed.

(** X13.  The record id of the session store names the data type and the
    second of the save, and nothing else: for clock readings within the
    ranges of [datetime], two demo saves get the same id exactly when they
    have the same data type and fall in the same second. *)
Theorem data_id_collides_iff e e' t t' :
  valid_datetime (now e 0) → valid_datetime (now e' 0) →
  data_id e t = data_id e' t' ↔ t = t' ∧ same_second (now e 0) (now e' 0).
Proof.
  intros Hv Hv'. unfold data_id. split.
  - intros H.
    apply string_app_inj_length_r in H as [-> H];
      [|by rewrite !string_app_length, !strftime_length].
    split; [done|].
    apply (string_app_inj_length "_" "_") in H as [_ H]; [|done].
    by apply strftime_inj.
  - intros [-> Hsec]. by rewrite (strftime_same_second _ _ Hsec).
Qed.

Lemma data_id_collides_iff_witness :
  data_id (calm "A") "budget" = data_id (calm_later "B") "budget"
  ↔ "budget" = "budget" ∧ same_second (now (calm "A") 0) (now (calm_later "B") 0).
Proof.
  apply (data_id_collides_iff (calm "A") (calm_later "B") "budget" "budget");
    vm_compute; repeat split; discriminate.
Defined.

(** ** Start-up *)

(** X14.  The body of [initialize_firebase] never raises.  It returns the
    SDK module, showing nothing, exactly when an app is registered already or
    every step on its path goes through: the certificate from the key file if
    that file exists, from the secrets otherwise, then [initialize_app], then
    [firestore.client()].  Otherwise it returns [None] and shows two things,
    the error with the text of the step that raised and the hint about the
    credentials. *)
Theorem initialize_firebase_body_outcomes b :
  (apps b = true ∨ ∀ s, s ∈ chosen_path b → step_raises b s = None) ∧
    initialize_firebase_body b = (Some tt, [], true)
  ∨
  apps b = false ∧
    ∃ s msg registered,
      s ∈ chosen_path b ∧ step_raises b s = Some msg ∧
      initialize_firebase_body b
      = (None,
         [UiError ("Firebase initialization error: " +:+ msg);
          UiInfo "Please ensure Firebase credentials are properly configured."],
         registered).
Proof.
  unfold initialize_firebase_body, chosen_path, step, initialization_failed.
  destruct (apps b) eqn:Happs; [left; by auto|].
  destruct (key_file_exists b).
  - destruct (step_raises b CertificateFromFile) as [msg|] eqn:H1;
      [right; split; [done|]; exists CertificateFromFile, msg, false;
       repeat split; [set_solver | done]|].
    destruct (step_raises b InitializeApp) as [msg|] eqn:H2;
      [right; split; [done|]; exists InitializeApp, msg, false;
       repeat split; [set_solver | done]|].
    destruct (step_raises b FirestoreClient) as [msg|] eqn:H3;
      [right; split; [done|]; exists FirestoreClient, msg, true;
       repeat split; [set_solver | done]|].
    left. split; [|done]. right. intros s Hs.
    repeat (apply elem_of_cons in Hs as [-> | Hs]; [done|]).
    by apply not_elem_of_nil in Hs.
  - destruct (step_raises b ReadSecrets) as [msg|] eqn:H0;
      [right; split; [done|]; exists ReadSecrets, msg, false;
       repeat split; [set_solver | done]|].
    destruct (step_raises b CertificateFromSecrets) as [msg|] eqn:H1;
      [right; split; [done|]; exists CertificateFromSecrets, msg, false;
       repeat split; [set_solver | done]|].
    destruct (step_raises b InitializeApp) as [msg|] eqn:H2;
      [right; split; [done|]; exists InitializeApp, msg, false;
       repeat split; [set_solver | done]|].
    destruct (step_raises b FirestoreClient) as [msg|] eqn:H3;
      [right; split; [done|]; exists FirestoreClient, msg, true;
       repeat split; [set_solver | done]|].
    left. split; [|done]. right. intros s Hs.
    repeat (apply elem_of_cons in Hs as [-> | Hs]; [done|]).
    by apply not_elem_of_nil in Hs.
Qed.

(** X15.  The key file wins and there is no falling back: when
    [serviceAccountKey.json] exists the secrets are not looked at, so a key
    file that cannot be loaded makes the body return [None] even where the
    secrets hold good credentials, and a good key file makes it succeed where
    reading the secrets would raise. *)
Theorem key_file_takes_precedence b raises' :
  key_file_exists b = true →
  (∀ s, s ≠ ReadSecrets → s ≠ CertificateFromSecrets →
        raises' s = step_raises b s) →
  initialize_firebase_body (MkBootstrap (apps b) true raises')
  = initialize_firebase_body b.
Proof.
  intros Hkey Hsame. unfold initialize_firebase_body, step. simpl.
  rewrite Hkey, !Hsame by done. done.
Qed.

Lemma key_file_takes_precedence_witness :
  initialize_firebase_body
    (MkBootstrap false true
       (λ s, if s is CertificateFromFile then Some "bad key" else None))
  = initialize_firebase_body
      (MkBootstrap false true
         (λ s, match s with
               | CertificateFromFile => Some "bad key"
               | ReadSecrets => Some "no secrets"
               | _ => None
               end)).
Proof.
  apply (key_file_takes_precedence
           (MkBootstrap false true
              (λ s, match s with
                    | CertificateFromFile => Some "bad key"
                    | ReadSecrets => Some "no secrets"
                    | _ => None
                    end))
           (λ s, if s is CertificateFromFile then Some "bad key" else None)).
  - reflexivity.
  - intros s Hs1 Hs2. by destruct s.
Defined.

(** X16.  A start-up that fails at [firestore.client()] has registered the
    app all the same, and a rerun of the body then finds [_apps] non-empty and
    returns the SDK module without a word, although no client was ever
    made. *)
Theorem failed_client_leaves_app_registered b msg :
  apps b = false →
  (∀ s, s ∈ chosen_path b → s ≠ FirestoreClient → step_raises b s = None) →
  step_raises b FirestoreClient = Some msg →
  initialize_firebase_body b
  = (None,
     [UiError ("Firebase initialization error: " +:+ msg);
      UiInfo "Please ensure Firebase credentials are properly configured."],
     true) ∧
  initialize_firebase_body
    (MkBootstrap true (key_file_exists b) (step_raises b))
  = (Some tt, [], true).
Proof.
  intros Happs Hpath Hclient. split; [|done].
  unfold initialize_firebase_body, step, initialization_failed, chosen_path in *.
  rewrite Happs, Hclient.
  destruct (key_file_exists b).
  - by rewrite !Hpath by (set_solver || done).
  - by rewrite !Hpath by (set_solver || done).
Qed.

Lemma failed_client_leaves_app_registered_witness :
  initialize_firebase_body
    (MkBootstrap false true
       (λ s, if s is FirestoreClient then Some "no project id" else None))
  = (None,
     [UiError ("Firebase initialization error: " +:+ "no project id");
      UiInfo "Please ensure Firebase credentials are properly configured."],
     true) ∧
  initialize_firebase_body
    (MkBootstrap true true
       (λ s, if s is FirestoreClient then Some "no project id" else None))
  = (Some tt, [], true).
Proof.
  apply (failed_client_leaves_app_registered
           (MkBootstrap false true
              (λ s, if s is FirestoreClient then Some "no project id" else None))
           "no project id").
  - reflexivity.
  - intros s _ Hs. by destruct s.
  - reflexivity.
Defined.

Ltac run_auth :=
  cbv beta iota delta
    [login_user create_user try_a bind_a pure_a raise_a st_error
     get_user_by_email auth_create_user client_for_profile set_profile
     initialize_firebase] in *.

(** ** Signing in and signing up *)

(** X17.  [login_user] never raises and never writes: accounts and profile
    documents are what they were.  With Firebase initialised and the lookup
    going through, it answers the uid of the account that has the email, and
    [None] when there is none; the password is not looked at, so any password
    signs in. *)
Theorem login_user_checks_email_only e a email password s :
  (∃ r, (login_user e a email password s).1 = Ret r) ∧
  accounts (login_user e a email password s).2 = accounts s ∧
  profiles (login_user e a email password s).2 = profiles s ∧
  (firebase_app e = true → auth_raises a GetUserByEmail = None →
   (login_user e a email password s).1 = Ret (accounts s !! email)).
Proof.
  run_auth. destruct (firebase_app e); simpl;
    [|repeat split; eauto; discriminate].
  destruct (auth_raises a GetUserByEmail); simpl;
    [repeat split; eauto; discriminate|].
  destruct (accounts s !! email); simpl; repeat split; eauto.
Qed.

Lemma login_user_checks_email_only_witness :
  (login_user (calm "A") (steady "U2") "ann@example.com" "wrong password"
     ann_signed_up).1
  = Ret (accounts ann_signed_up !! "ann@example.com").
Proof.
  apply (login_user_checks_email_only (calm "A") (steady "U2")
           "ann@example.com" "wrong password" ann_signed_up);
    reflexivity.
Defined.

(** What [login_user] answers with Firebase initialised, when the lookup
    goes through. *)
Lemma login_user_signed_in e a email password s :
  firebase_app e = true → auth_raises a GetUserByEmail = None →
  (login_user e a email password s).1 = Ret (accounts s !! email).
Proof.
  intros Happ Hget. run_auth. rewrite Happ, Hget.
  by destruct (accounts s !! email).
Qed.

(** What [create_user] does with Firebase initialised. *)
Lemma create_user_signed_up e a email password s :
  firebase_app e = true →
  create_user e a email password s
  = match auth_raises a CreateUser with
    | Some msg =>
        (Ret None,
         MkIdentity (accounts s) (profiles s)
           (notices s ++ [UiError ("Account creation failed: " +:+ msg)]))
    | None =>
        match accounts s !! email with
        | Some _ =>
            (Ret None,
             MkIdentity (accounts s) (profiles s)
               (notices s ++
                [UiError ("Account creation failed: " +:+
                          "The user with the provided email already exists (EMAIL_EXISTS).")]))
        | None =>
            match auth_raises a ClientForProfile with
            | Some msg =>
                (Ret None,
                 MkIdentity (<[email := new_uid a]> (accounts s)) (profiles s)
                   (notices s ++ [UiError ("Account creation failed: " +:+ msg)]))
            | None =>
                match auth_raises a SetProfile with
                | Some msg =>
                    (Ret None,
                     MkIdentity (<[email := new_uid a]> (accounts s)) (profiles s)
                       (notices s ++
                        [UiError ("Account creation failed: " +:+ msg)]))
                | None =>
                    (Ret (Some (new_uid a)),
                     MkIdentity (<[email := new_uid a]> (accounts s))
                       (<[new_uid a := profile_doc e email]> (profiles s))
                       (notices s))
                end
            end
        end
    end.
Proof.
  intros Happ. run_auth. rewrite Happ.
  destruct (auth_raises a CreateUser); [done|].
  destruct (accounts s !! email); [done|].
  destruct (auth_raises a ClientForProfile); [done|].
  by destruct (auth_raises a SetProfile).
Qed.

(** X18.  Sign up, then sign in: with Firebase initialised, after a
    [create_user] that answered a uid, [login_user] with the same email, any
    password, answers that uid when the lookup goes through. *)
Theorem create_then_login e e' a a' email password password' s uid :
  firebase_app e = true →
  (create_user e a email password s).1 = Ret (Some uid) →
  firebase_app e' = true → auth_raises a' GetUserByEmail = None →
  (login_user e' a' email password' (create_user e a email password s).2).1
  = Ret (Some uid).
Proof.
  intros Happ Hres Happ' Hget.
  rewrite login_user_signed_in by done. revert Hres. rewrite create_user_signed_up by done.
  destruct (auth_raises a CreateUser); [discriminate|].
  destruct (accounts s !! email); [discriminate|].
  destruct (auth_raises a ClientForProfile); [discriminate|].
  destruct (auth_raises a SetProfile); [discriminate|].
  simpl. intros [= <-]. by rewrite lookup_insert_eq.
Qed.

Lemma create_then_login_witness :
  (login_user (calm "A") (steady "U2") "ann@example.com" "other"
     (create_user (calm "A") (steady "U1") "ann@example.com" "secret" nobody).2).1
  = Ret (Some "U1").
Proof.
  apply (create_then_login (calm "A") (calm "A") (steady "U1") (steady "U2")
           "ann@example.com" "secret" "other" nobody "U1");
    vm_compute; reflexivity.
Defined.

(** X19.  A sign-up can fail half way: when the account is created and the
    write of the profile document then raises (or making the client for it),
    [create_user] answers [None] and shows the error, yet the account exists
    with no profile document.  From then on a sign-in with that email succeeds
    and a second sign-up with it is refused. *)
Theorem create_user_can_leave_account_without_profile
    e e' a a' email password password' s msg :
  firebase_app e = true → auth_raises a CreateUser = None →
  accounts s !! email = None →
  auth_raises a ClientForProfile = Some msg
  ∨ auth_raises a ClientForProfile = None ∧ auth_raises a SetProfile = Some msg →
  firebase_app e' = true → auth_raises a' GetUserByEmail = None →
  let s' := (create_user e a email password s).2 in
  (create_user e a email password s).1 = Ret None ∧
  accounts s' !! email = Some (new_uid a) ∧
  profiles s' = profiles s ∧
  notices s' = notices s ++ [UiError ("Account creation failed: " +:+ msg)] ∧
  (login_user e' a' email password' s').1 = Ret (Some (new_uid a)) ∧
  (create_user e' a' email password' s').1 = Ret None.
Proof.
  intros Happ Hcreate Hnew Hfail Happ' Hget s'.
  assert (create_user e a email password s
          = (Ret None,
             MkIdentity (<[email := new_uid a]> (accounts s)) (profiles s)
               (notices s ++ [UiError ("Account creation failed: " +:+ msg)])))
    as Hrun.
  { rewrite create_user_signed_up by done. rewrite Hcreate, Hnew.
    destruct Hfail as [-> | [-> ->]]; done. }
  subst s'. rewrite Hrun. simpl.
  split; [done|]. split; [apply lookup_insert_eq|]. split; [done|].
  split; [done|]. split.
  - rewrite login_user_signed_in by done. simpl. by rewrite lookup_insert_eq.
  - rewrite create_user_signed_up by done. simpl.
    destruct (auth_raises a' CreateUser); [done|].
    by rewrite lookup_insert_eq.
Qed.

Lemma create_user_can_leave_account_without_profile_witness :
  (create_user (calm "A")
     (MkAuthEnv (λ c, if c is SetProfile then Some "503 unavailable" else None)
                "U1")
     "ann@example.com" "secret" nobody).1 = Ret None ∧
  accounts (create_user (calm "A")
     (MkAuthEnv (λ c, if c is SetProfile then Some "503 unavailable" else None)
                "U1")
     "ann@example.com" "secret" nobody).2 !! "ann@example.com" = Some "U1".
Proof.
  destruct (create_user_can_leave_account_without_profile
              (calm "A") (calm "A")
              (MkAuthEnv (λ c, if c is SetProfile then Some "503 unavailable"
                               else None) "U1")
              (steady "U2") "ann@example.com" "secret" "other" nobody
              "503 unavailable") as (Hres & Hacc & _);
    try reflexivity.
  - right. split; reflexivity.
  - split; [exact Hres | exact Hacc].
Defined.

(** X20.  A [create_user] that answers a uid, with Firebase initialised,
    has made exactly one account and one profile document: the email now maps
    to that uid, the document under the uid holds the email and the settings
    [currency = USD] and [theme = light], every other account and every other
    profile document is as before, and nothing was shown. *)
Theorem create_user_writes_profile e a email password s uid :
  firebase_app e = true →
  (create_user e a email password s).1 = Ret (Some uid) →
  let s' := (create_user e a email password s).2 in
  accounts s !! email = None ∧
  accounts s' !! email = Some uid ∧
  (∀ other, other ≠ email → accounts s' !! other = accounts s !! other) ∧
  (∃ d, profiles s' !! uid = Some d ∧
        d !! "email" = Some (VStr email) ∧
        d !! "settings"
        = Some (VMapping {[ "currency" := "USD"; "theme" := "light" ]})) ∧
  (∀ other, other ≠ uid → profiles s' !! other = profiles s !! other) ∧
  notices s' = notices s.
Proof.
  intros Happ. rewrite create_user_signed_up by done.
  destruct (auth_raises a CreateUser); [discriminate|].
  destruct (accounts s !! email) eqn:Hnew; [discriminate|].
  destruct (auth_raises a ClientForProfile); [discriminate|].
  destruct (auth_raises a SetProfile); [discriminate|].
  simpl. intros [= <-]. split; [done|]. split; [apply lookup_insert_eq|].
  split; [intros other Hne; by rewrite lookup_insert_ne|]. split.
  - exists (profile_doc e email). split; [apply lookup_insert_eq|].
    unfold profile_doc. split; by simplify_map_eq.
  - split; [|done]. intros other Hne. by rewrite lookup_insert_ne.
Qed.

Lemma create_user_writes_profile_witness :
  accounts (create_user (calm "A") (steady "U1") "ann@example.com" "secret"
              nobody).2 !! "ann@example.com" = Some "U1".
Proof.
  destruct (create_user_writes_profile (calm "A") (steady "U1")
              "ann@example.com" "secret" nobody "U1") as (_ & Hacc & _);
    [reflexivity | reflexivity | exact Hacc].
Defined.

(** ** Demo identities *)

Lemma demo_user_id_prefix email :
  startswith (demo_user_id email) demo_prefix = true.
Proof. unfold startswith, demo_user_id. vm_compute. by destruct email. Qed.

(** X21.  With Firebase not initialised [login_user] and [create_user]
    give the same answer for an email, the demo id, with no Firebase call and
    no message of their own; and that id begins with [demo_user_], so each of
    the five storage operations made for it stays in the session state: no
    backend call, Firestore as it was. *)
Theorem demo_identity_stays_local e a email password s e' op w :
  firebase_app e = false →
  login_user e a email password s = (Ret (Some (demo_user_id email)), s) ∧
  create_user e a email password s = (Ret (Some (demo_user_id email)), s) ∧
  trace (after (exec e' (Some (demo_user_id email)) op w)) = trace w ∧
  firestore (after (exec e' (Some (demo_user_id email)) op w)) = firestore w.
Proof.
  intros Happ. split; [|split].
  - run_auth. by rewrite Happ.
  - run_auth. by rewrite Happ.
  - apply demo_mode_local, demo_mode_prefix, demo_user_id_prefix.
Qed.

Lemma demo_identity_stays_local_witness :
  login_user (MkEnv (λ _, noon) false (λ _, None) "A") (steady "U1")
             "a@b.com" "secret" nobody
  = (Ret (Some (demo_user_id "a@b.com")), nobody) ∧
  create_user (MkEnv (λ _, noon) false (λ _, None) "A") (steady "U1")
              "a@b.com" "secret" nobody
  = (Ret (Some (demo_user_id "a@b.com")), nobody) ∧
  trace (after (exec (calm "A") (Some (demo_user_id "a@b.com"))
                  (SaveFinancialData "budget" two_rows) empty_world))
  = trace empty_world ∧
  firestore (after (exec (calm "A") (Some (demo_user_id "a@b.com"))
                      (SaveFinancialData "budget" two_rows) empty_world))
  = firestore empty_world.
Proof.
  apply (demo_identity_stays_local (MkEnv (λ _, noon) false (λ _, None) "A")
           (steady "U1") "a@b.com" "secret" nobody (calm "A")
           (SaveFinancialData "budget" two_rows) empty_world).
  reflexivity.
Defined.

Lemma replace_length old new s :
  String.length (replace old new s) = String.length s.
Proof. induction s as [|c s IH]; simpl; [done | by rewrite IH]. Qed.

Lemma replace_removes old new s :
  new ≠ old → old ∉ list_ascii_of_string (replace old new s).
Proof.
  intros Hne. induction s as [|c s IH]; simpl; [apply not_elem_of_nil|].
  apply not_elem_of_cons. split; [|done].
  destruct (Ascii.eqb_spec c old); congruence.
Qed.

Lemma replace_keeps_out old new c s :
  c ≠ new → c ∉ list_ascii_of_string s →
  c ∉ list_ascii_of_string (replace old new s).
Proof.
  intros Hne. induction s as [|c' s IH]; simpl; [done|].
  rewrite !not_elem_of_cons. intros [Hc Hs]. split; [|by apply IH].
  by destruct (Ascii.eqb c' old).
Qed.

Lemma replace_idempotent old new s :
  new ≠ old → replace old new (replace old new s) = replace old new s.
Proof.
  intros Hne. induction s as [|c s IH]; simpl; [done|]. rewrite IH. f_equal.
  destruct (Ascii.eqb_spec c old) as [->|Hc].
  - by destruct (Ascii.eqb_spec new old).
  - by destruct (Ascii.eqb_spec c old).
Qed.

Lemma replace_commute a b new s :
  new ≠ a → new ≠ b →
  replace a new (replace b new s) = replace b new (replace a new s).
Proof.
  intros Ha Hb. induction s as [|c s IH]; simpl; [done|]. rewrite IH. f_equal.
  destruct (Ascii.eqb_spec c b), (Ascii.eqb_spec c a);
    repeat match goal with
           | |- context [Ascii.eqb ?x ?y] => destruct (Ascii.eqb_spec x y)
           end; congruence.
Qed.

Lemma list_ascii_of_string_app s t :
  list_ascii_of_string (s +:+ t)
  = list_ascii_of_string s ++ list_ascii_of_string t.
Proof. induction s as [|c s IH]; simpl; [done | by rewrite IH]. Qed.

(** X22.  The demo id made from an email is [demo_user_] followed by as
    many characters as the email has, and holds no [@] and no dot.  The
    transform loses information: an email with its [@] or its dots already
    written as underscores gets the same id, so different emails can share a
    demo id. *)
Theorem demo_user_id_shape email :
  String.length (demo_user_id email) = 10 + String.length email ∧
  ("@"%char ∉ list_ascii_of_string (demo_user_id email)) ∧
  ("."%char ∉ list_ascii_of_string (demo_user_id email)) ∧
  demo_user_id (replace "@" "_" email) = demo_user_id email ∧
  demo_user_id (replace "." "_" email) = demo_user_id email ∧
  demo_user_id "a.b@c.d" = demo_user_id "a_b@c_d" ∧ "a.b@c.d" ≠ "a_b@c_d".
Proof.
  unfold demo_user_id. split; [|split; [|split; [|split; [|split]]]].
  - by rewrite string_app_length, !replace_length.
  - rewrite list_ascii_of_string_app. apply not_elem_of_app. split.
    + simpl. intros Hin.
      repeat (apply elem_of_cons in Hin as [Hin|Hin]; [discriminate|]).
      by apply elem_of_nil in Hin.
    + apply replace_keeps_out; [done|]. by apply replace_removes.
  - rewrite list_ascii_of_string_app. apply not_elem_of_app. split.
    + simpl. intros Hin.
      repeat (apply elem_of_cons in Hin as [Hin|Hin]; [discriminate|]).
      by apply elem_of_nil in Hin.
    + by apply replace_removes.
  - by rewrite replace_idempotent.
  - rewrite (replace_commute "." "@" "_" (replace "." "_" email)) by done.
    rewrite replace_idempotent by done.
    by rewrite (replace_commute "@" ".").
  - split; [reflexivity | discriminate].
Qed.

Example login_demo :
  login_user (MkEnv (λ _, noon) false (λ _, None) "A") (steady "U1")
             "ann.lee@example.com" "secret" nobody
  = (Ret (Some "demo_user_ann_lee_example_com"), nobody).
Proof. vm_compute. reflexivity. Qed.
